(** * fake_hdf5: fake-star catalog ingestion (phat_pypipeline)

    A shallow embedding of [build/fake_hdf5.py]: the quality classifier
    [cull_fakestars], the schema resolver [name_columns], the coordinate
    attacher [add_wcs] and the catalog writer [read_fakestars].

    Conventions of the embedding.
    - Python [str] is [string]; [float] and numpy [float64] are the
      primitive binary64 floats of Rocq, so [nan], comparisons and the
      square [x**2] (numpy evaluates it as [x*x]) are the IEEE ones;
      numpy [int64] is [Z] with its wrap-around written out.
    - A pandas DataFrame is its number of rows and its ordered list of
      labelled columns.  Labels are taken to be distinct, as [read_csv]
      guarantees for the frames it builds; a column assignment
      replaces the cells of the column of that label, or appends it.
    - numpy and pandas calls whose result depends on the installed
      version ([np.loadtxt] with a separator of two characters,
      [np.unique] on rows of unequal length) and the calls into wpipe,
      astropy and [re] are variables of the sections that use them.
    - [my_config.parameters] is a finite map from keys to values.
    - Exceptions are values of [pyexn]; mutable objects are threaded
      explicitly, so the state reached when an exception escapes is
      still visible.
    - [print] and [logprint] output is kept only where a caller can
      tell conditions apart by it ([add_wcs]); elsewhere it is dropped. *)

From Stdlib Require Import Floats.PrimFloat.
From Stdlib Require Floats.FloatAxioms Floats.FloatOps Floats.SpecFloat.
From stdpp Require Import gmap strings list pretty.

Set Warnings "-inexact-float".
Set Default Proof Using "Type".

(** ** Python values, exceptions and results *)

Inductive pyexn : Type :=
| NameError
| UnboundLocalError
| KeyError
| ValueError
| TypeError
| IndexError
| AttributeError
| OtherError (cls : string).

Inductive pyresult (A : Type) : Type :=
| Ok (a : A)
| Raise (e : pyexn).
Arguments Ok {A} a.
Arguments Raise {A} e.

Definition pybind {A B} (r : pyresult A) (k : A -> pyresult B) : pyresult B :=
  match r with
  | Ok a => k a
  | Raise e => Raise e
  end.

Notation "x <- r ;; k" := (pybind r (fun x => k))
  (at level 100, r at next level, right associativity).

(** Values stored in the parameter object of a configuration. *)
Inductive pyval : Type :=
| PFloat (x : float)
| PStr (s : string).

Abbreviation params := (gmap string pyval).

(** ** Python string methods used by the module *)

Module PyStr.

Definition lower_ascii (c : Ascii.ascii) : Ascii.ascii :=
  let n := Ascii.nat_of_ascii c in
  if (65 <=? n)%nat && (n <=? 90)%nat then Ascii.ascii_of_nat (n + 32) else c.

(** [s.lower()] on ASCII text. *)
Fixpoint lower (s : string) : string :=
  match s with
  | EmptyString => EmptyString
  | String c s' => String (lower_ascii c) (lower s')
  end.

(** [sub in s], also [s.find(sub) != -1]. *)
Fixpoint contains (sub s : string) : bool :=
  String.prefix sub s ||
  match s with
  | EmptyString => false
  | String _ s' => contains sub s'
  end.

(** [s.split(sep)] for a non-empty separator: the pieces between the
    non-overlapping occurrences of [sep], found left to right.  [skip]
    counts the characters of a matched separator still to be passed. *)
Fixpoint split_go (sep : string) (skip : nat) (s : string) : list string :=
  match s with
  | EmptyString => [EmptyString]
  | String c s' =>
      match skip with
      | S k => split_go sep k s'
      | O =>
          if String.prefix sep s
          then EmptyString :: split_go sep (String.length sep - 1) s'
          else match split_go sep 0 s' with
               | p :: ps => String c p :: ps
               | [] => [String c EmptyString]
               end
      end
  end.

Definition split (sep s : string) : list string := split_go sep 0 s.

(** [s.replace(old, new)] for a non-empty [old]. *)
Fixpoint replace_go (old new : string) (skip : nat) (s : string) : string :=
  match s with
  | EmptyString => EmptyString
  | String c s' =>
      match skip with
      | S k => replace_go old new k s'
      | O =>
          if String.prefix old s
          then new +:+ replace_go old new (String.length old - 1) s'
          else String c (replace_go old new 0 s')
      end
  end.

Definition replace (old new s : string) : string := replace_go old new 0 s.

(** [sep.join(parts)] *)
Definition join (sep : string) (parts : list string) : string :=
  String.concat sep parts.

End PyStr.

(** ** DataFrames *)

Inductive column : Type :=
| CFloat (xs : list float)     (* float64 *)
| CInt (zs : list Z)           (* int64 *)
| CBool (bs : list bool)       (* bool *)
| CObj (ss : list string).     (* object, holding str *)

Record frame : Type := Frame {
  nrows : nat;
  cols : list (string * column)
}.

Definition labels (df : frame) : list string := (cols df).*1.

(** Ordered, labelled entries: the columns of a frame, the sections of
    a store file. *)
Module Alist.

Fixpoint get {A} (name : string) (l : list (string * A)) : option A :=
  match l with
  | [] => None
  | (n, c) :: l' => if String.eqb n name then Some c else get name l'
  end.

Fixpoint set {A} (name : string) (c : A) (l : list (string * A))
  : list (string * A) :=
  match l with
  | [] => [(name, c)]
  | (n, c0) :: l' =>
      if String.eqb n name then (n, c) :: l' else (n, c0) :: set name c l'
  end.

End Alist.

(** [df[name]], [None] when the label is absent. *)
Definition frame_get (name : string) (df : frame) : option column :=
  Alist.get name (cols df).

(** [df.loc[:, name] = c] *)
Definition frame_set (name : string) (c : column) (df : frame) : frame :=
  Frame (nrows df) (Alist.set name c (cols df)).

(** The column that [df.loc[:, name] = np.nan] stores. *)
Definition nan_column (df : frame) : column := CFloat (replicate (nrows df) nan).

(** [df.loc[:, name]] as an expression *)
Definition loc_col (name : string) (df : frame) : pyresult column :=
  match frame_get name df with
  | Some c => Ok c
  | None => Raise KeyError
  end.

Definition float_of_bool (b : bool) : float := if b then 1%float else 0%float.

(** The binary64 nearest to an integer, as numpy converts [int64]
    cells that meet a float. *)
Definition float_of_Z (z : Z) : float :=
  FloatOps.SF2Prim (SpecFloat.binary_normalize FloatOps.prec FloatOps.emax z 0 false).

(** [int64] arithmetic wraps around. *)
Definition wrap64 (z : Z) : Z := ((z + 2 ^ 63) mod 2 ^ 64 - 2 ^ 63)%Z.

(** The numbers a column offers to a comparison or to arithmetic with a
    float: object columns of text refuse with a TypeError. *)
Definition numeric (c : column) : pyresult (list float) :=
  match c with
  | CFloat xs => Ok xs
  | CInt zs => Ok (float_of_Z <$> zs)
  | CBool bs => Ok (float_of_bool <$> bs)
  | CObj _ => Raise TypeError
  end.

(** [col > v] and [col < v] for a scalar [v] read from the parameters;
    [op] and [sop] are the comparison on numbers and on text.  pandas
    refuses a text scalar for a numeric column whatever its length
    (invalid comparison); an object column is compared cell by cell,
    so text meets text in the order of [str], and text meets a number
    with a TypeError at the first cell. *)
Definition compare_scalar (op : float -> float -> bool) (sop : string -> string -> bool)
    (c : column) (v : pyval) : pyresult (list bool) :=
  match c, v with
  | CObj ss, PStr t => Ok ((fun s => sop s t) <$> ss)
  | CObj [], PFloat _ => Ok []
  | CObj (_ :: _), PFloat _ => Raise TypeError
  | _, PStr _ => Raise TypeError
  | _, PFloat y => xs <- numeric c ;; Ok ((fun x => op x y) <$> xs)
  end.

Definition col_gt : column -> pyval -> pyresult (list bool) :=
  compare_scalar (fun x y => PrimFloat.ltb y x) (fun s t => String.ltb t s).

Definition col_lt : column -> pyval -> pyresult (list bool) :=
  compare_scalar (fun x y => PrimFloat.ltb x y) (fun s t => String.ltb s t).

(** [col ** 2]: floats are multiplied, [int64] cells wrap, booleans
    become the integers 0 and 1, text cells refuse. *)
Definition square (c : column) : pyresult column :=
  match c with
  | CFloat xs => Ok (CFloat ((fun x => PrimFloat.mul x x) <$> xs))
  | CInt zs => Ok (CInt ((fun z => wrap64 (z * z)) <$> zs))
  | CBool bs => Ok (CInt (Z.b2z <$> bs))
  | CObj [] => Ok (CObj [])
  | CObj (_ :: _) => Raise TypeError
  end.

(** [my_config.parameters[key]] *)
Definition param_get (key : string) (p : params) : pyresult pyval :=
  match p !! key with
  | Some v => Ok v
  | None => Raise KeyError
  end.

(** ** Quality classifier: [cull_fakestars] *)

(** [try: test = parameters[key] / except: parameters[key] = dflt] *)
Definition fill_default (key : string) (dflt : float) (p : params) : params :=
  match p !! key with
  | Some _ => p
  | None => <[key := PFloat dflt]> p
  end.

(** The four detector [if]s of the loop body, in source order; each
    may rename [d] and fill the two cut parameters of its class. *)
Definition detector_class (d f : string) (p : params) : string * params :=
  let '(d, p) :=
    if String.eqb d "wfc3" && PyStr.contains "f1" f
    then ("ir", fill_default "ir_crowd" 2.25 (fill_default "ir_sharp" 0.15 p))
    else (d, p) in
  let '(d, p) :=
    if String.eqb d "wfc3" && negb (PyStr.contains "f1" f)
    then ("uvis", fill_default "uvis_crowd" 1.3 (fill_default "uvis_sharp" 0.15 p))
    else (d, p) in
  let '(d, p) :=
    if String.eqb d "acs"
    then ("wfc", fill_default "wfc_crowd" 2.25 (fill_default "wfc_sharp" 0.2 p))
    else (d, p) in
  if String.eqb d "nircam"
  then (d, fill_default "nircam_crowd" 0.5 (fill_default "nircam_sharp" 0.01 p))
  else (d, p).

(** Lines 156-160: the three boolean arrays of one filter.  [name] is
    [filt.lower()], [d] the detector class. *)
Definition cut_conditions (df : frame) (name d : string) (snrcut : pyval) (p : params)
  : pyresult (list bool * list bool * list bool) :=
  snr_col <- loc_col (name +:+ "_snr") df ;;
  snr_condition <- col_gt snr_col snrcut ;;
  sharp_col <- loc_col (name +:+ "_sharp") df ;;
  sharp_squared <- square sharp_col ;;
  sharp_par <- param_get (d +:+ "_sharp") p ;;
  sharp_condition <- col_lt sharp_squared sharp_par ;;
  crowd_col <- loc_col (name +:+ "_crowd") df ;;
  crowd_par <- param_get (d +:+ "_crowd") p ;;
  crowd_condition <- col_lt crowd_col crowd_par ;;
  Ok (snr_condition, sharp_condition, crowd_condition).

(** [df.loc[:, name] = np.nan], lines 169 and 170: every cell of the
    column becomes NaN; for a label the frame lacks the column is
    appended, which pandas refuses with a ValueError when the frame
    has no rows (no defined index to set a scalar on). *)
Definition loc_set_nan (name : string) (df : frame) : pyresult frame :=
  if (nrows df =? 0)%nat && negb (bool_decide (name ∈ labels df))
  then Raise ValueError
  else Ok (frame_set name (nan_column df) df).

(** Lines 153-171: the [try] and its handler, giving the frame as the
    iteration leaves it and the exception that escapes the handler, if
    one does.  Nothing is stored before the three conditions exist,
    and the two stores of booleans cannot fail, so the handler always
    starts from the frame the iteration received.  The [df[.._st]]
    read on line 163 is the column stored on line 162. *)
Definition cull_filter (df : frame) (name d : string) (snrcut : pyval) (p : params)
  : frame * option pyexn :=
  match cut_conditions df name d snrcut p with
  | Ok (snr_condition, sharp_condition, crowd_condition) =>
      let st := zip_with andb snr_condition sharp_condition in
      let df := frame_set (name +:+ "_st") (CBool st) df in
      let gst := zip_with andb st crowd_condition in
      (frame_set (name +:+ "_gst") (CBool gst) df, None)
  | Raise _ =>
      match loc_set_nan (name +:+ "_st") df with
      | Raise e => (df, Some e)
      | Ok df1 =>
          match loc_set_nan (name +:+ "_gst") df1 with
          | Raise e => (df1, Some e)
          | Ok df2 => (df2, None)
          end
      end
  end.

(** [d, f = filt.lower().split('_')] *)
Definition unpack2 (parts : list string) : pyresult (string * string) :=
  match parts with
  | [d; f] => Ok (d, f)
  | _ => Raise ValueError
  end.

(** How a call that mutates a frame and a parameter object ends: both
    objects are given in the state they were left in. *)
Inductive outcome : Type :=
| Returned (df : frame) (p : params)
| Raised (e : pyexn) (df : frame) (p : params).

Definition outcome_params (o : outcome) : params :=
  match o with
  | Returned _ p => p
  | Raised _ _ p => p
  end.

Definition outcome_frame (o : outcome) : frame :=
  match o with
  | Returned df _ => df
  | Raised _ df _ => df
  end.

Fixpoint cull_loop (snrcut : pyval) (filter_detectors : list string)
    (df : frame) (p : params) : outcome :=
  match filter_detectors with
  | [] => Returned df p
  | filt :: rest =>
      match unpack2 (PyStr.split "_" (PyStr.lower filt)) with
      | Raise e => Raised e df p
      | Ok (d, f) =>
          let '(d, p) := detector_class d f p in
          match cull_filter df (PyStr.lower filt) d snrcut p with
          | (df, Some e) => Raised e df p
          | (df, None) => cull_loop snrcut rest df p
          end
      end
  end.

(** Lines 99-103: the cut is read once; the fallback stays local. *)
Definition read_snrcut (p : params) : pyval :=
  match p !! "snrcut" with
  | Some v => v
  | None => PFloat 4.0
  end.

(** [p] is [my_config.parameters].  The keyword [snrcut] of the
    signature is overwritten on line 100 or 102 before any use. *)
Definition cull_fakestars (df : frame) (filter_detectors : list string) (p : params)
  : outcome :=
  cull_loop (read_snrcut p) filter_detectors df p.

(** ** Coordinate attacher: [add_wcs] *)

(** The three lines [add_wcs] can print. *)
Inductive message : Type :=
| NoDrizzled                               (* 'No drizzled files found; skipping RA and Dec' *)
| MultipleDrizzled (drzfiles : list string) (* 'Multiple drizzled files found: ...' *)
| UsingReference (drzfile : string).        (* 'Using ... as astrometric reference' *)

(** [df.name] for a column label *)
Definition attr_col (name : string) (df : frame) : pyresult column :=
  match frame_get name df with
  | Some c => Ok c
  | None => Raise AttributeError
  end.

(** [df.insert(loc, name, vals)]: the label must be new, the values as
    many as the rows, and [loc] at most the number of columns. *)
Definition frame_insert (loc : nat) (name : string) (vals : list float) (df : frame)
  : pyresult frame :=
  if bool_decide (name ∈ labels df) then Raise ValueError
  else if negb (length vals =? nrows df)%nat then Raise ValueError
  else if (length (cols df) <? loc)%nat then Raise IndexError
  else Ok (Frame (nrows df)
             (take loc (cols df) ++ (name, CFloat vals) :: drop loc (cols df))).

Section CoordinateAttacher.

(** [WCS(drzfile).all_pix2world(x, y, 0)], an astropy call. *)
Variable all_pix2world :
  string -> column -> column -> pyresult (list float * list float).

(** [drzfiles] stands for the file names of the products that
    [wp.DataProduct.select(.., subtype="reference_prepped")] returns. *)
Definition add_wcs (df : frame) (photfile : string) (drzfiles : list string)
  : list message * pyresult frame :=
  if (length drzfiles =? 0)%nat then ([NoDrizzled], Ok df)
  else if (1 <? length drzfiles)%nat then ([MultipleDrizzled drzfiles], Ok df)
  else
    match drzfiles with
    | [] => ([], Raise IndexError)
    | drzfile :: _ =>
        ([UsingReference drzfile],
         x <- attr_col "x" df ;;
         y <- attr_col "y" df ;;
         radec <- all_pix2world drzfile x y ;;
         df <- frame_insert 4 "ra" radec.1 df ;;
         frame_insert 5 "dec" radec.2 df)
    end.

End CoordinateAttacher.

(** ** Module globals *)

(** The names that the functions read without binding them.  [None] or
    [false] is an unbound name. *)
Record globals : Type := Globals {
  g_imnames : option (list string);
  g_this_config : bool;
  g_my_job : bool;
  g_photfile : option string
}.

(** What the [__main__] block has bound when it calls [name_columns]
    and [read_fakestars]: [my_job] and [photfile], neither [imnames]
    nor [this_config]. *)
Definition script_globals (photfile : string) : globals :=
  Globals None false true (Some photfile).

Definition global_name {A} (v : option A) : pyresult A :=
  match v with
  | Some a => Ok a
  | None => Raise NameError
  end.

Definition global_bound (b : bool) : pyresult unit :=
  if b then Ok tt else Raise NameError.

(** ** Schema resolver: [name_columns] *)

Definition fakepos_columns : list string := ["ext_in"; "chip_in"; "x_in"; "y_in"].

Definition global_columns : list string :=
  ["ext"; "chip"; "x"; "y"; "chi_gl"; "snr_gl"; "sharp_gl";
   "round_gl"; "majax_gl"; "crowd_gl"; "objtype_gl"].

Definition colname_mappings : list (string * string) :=
  [("counts,", "count");
   ("sky level,", "sky");
   ("Normalized count rate,", "rate");
   ("Normalized count rate uncertainty,", "raterr");
   ("Instrumental VEGAMAG magnitude,", "vega");
   ("Transformed UBVRI magnitude,", "trans");
   ("Magnitude uncertainty,", "err");
   ("Chi,", "chi");
   ("Signal-to-noise,", "snr");
   ("Sharpness,", "sharp");
   ("Roundness,", "round");
   ("Crowding,", "crowd");
   ("Photometry quality flag,", "flag")].

(** A row of the table [df] of [name_columns]: description and name. *)
Abbreviation schema_row := (string * string)%type.

(** [df.loc[a:b, 'colnames'] = vals] on the default integer index: the
    rows labelled [a] to [b], both included, as far as they exist, must
    be as many as the values. *)
Definition loc_assign (a b : nat) (vals : list string) (df : list schema_row)
  : pyresult (list schema_row) :=
  let selected := (Nat.min (S b) (length df) - a)%nat in
  if (selected =? length vals)%nat
  then Ok (take a df ++
           zip_with (fun row v => (row.1, v)) (take selected (drop a df)) vals ++
           drop (a + selected) df)
  else Raise ValueError.

(** Lines 287-297 for one row and one [(k, v)] of [colname_mappings]:
    the row after the two assignments, and the filter token when the
    row is a combined-photometry one. *)
Definition map_row (k v : string) (row : schema_row) : schema_row * option string :=
  if PyStr.contains k row.1 then
    let desc_split := PyStr.split ", " row.1 in
    if (length desc_split =? 2)%nat then
      let filt := PyStr.replace "'" "" (default "" (last desc_split)) in
      ((row.1, PyStr.lower filt +:+ "_" +:+ PyStr.lower v), Some filt)
    else if (2 <? length desc_split)%nat then
      let imgname := default "" (head (PyStr.split " " (default "" (desc_split !! 1%nat)))) in
      ((row.1, imgname +:+ "_" +:+ PyStr.lower v), None)
    else (row, None)
  else (row, None).

(** The loop over [colname_mappings]: the table and [filters_all]. *)
Fixpoint mapping_loop (mappings : list (string * string)) (df : list schema_row)
    (filters_all : list (list string)) : list schema_row * list (list string) :=
  match mappings with
  | [] => (df, filters_all)
  | (k, v) :: rest =>
      let rows := map_row k v <$> df in
      mapping_loop rest (rows.*1) (filters_all ++ [omap snd rows])
  end.

Fixpoint insert_unique (s : string) (l : list string) : list string :=
  match l with
  | [] => [s]
  | t :: l' =>
      match String.compare s t with
      | Lt => s :: l
      | Eq => l
      | Gt => t :: insert_unique s l'
      end
  end.

(** The sorted distinct elements, as [np.unique] returns them. *)
Definition sort_unique (l : list string) : list string :=
  foldr insert_unique [] l.

Definition same_lengths (ls : list (list string)) : bool :=
  match ls with
  | [] => true
  | l :: ls' => forallb (fun l' => (length l' =? length l)%nat) ls'
  end.

(** [pd.DataFrame(data=np.loadtxt(..), columns=[c1, c2])] for the
    rows of fields that [np.loadtxt] has split: the array is
    two-dimensional only from two rows on (one row is squeezed to one
    dimension, as is a single field per row), and the constructor
    refuses with a ValueError every array that has not two columns. *)
Definition two_column_frame (rows : list (list string))
  : pyresult (list (string * string)) :=
  match rows with
  | _ :: _ :: _ =>
      match mapM (fun row => match row with
                             | [a; b] => Some (a, b)
                             | _ => None
                             end) rows with
      | Some table => Ok table
      | None => Raise ValueError
      end
  | _ => Raise ValueError
  end.

Section SchemaResolver.

(** [np.loadtxt(file, delimiter=sep, dtype=str)]: the fields of every
    line of the file, or the exception of the call.  numpy 1.23 and
    later refuse a separator of more than one character. *)
Variable loadtxt : string -> string -> pyresult (list (list string)).

(** Lines 274-276 once [this_config] is read: the product lookup of
    wpipe and its two option reads, giving camera and filter. *)
Variable select_product : string -> pyresult (string * string).

(** [np.unique(np.array(rows).ravel())] for rows of unequal length;
    what numpy does there depends on its version. *)
Variable unique_ragged : list (list string) -> pyresult (list string).

Definition unique_ravel (filters_all : list (list string)) : pyresult (list string) :=
  if same_lengths filters_all then Ok (sort_unique (concat filters_all))
  else unique_ragged filters_all.

(** Lines 270-280. [ind] is unbound until an image with "chip" in its
    name has been seen. *)
Fixpoint image_loop (g : globals) (images : list string) (countim : nat)
    (ind : option nat) (df : list schema_row)
  : pyresult (option nat * list schema_row) :=
  match images with
  | [] => Ok (ind, df)
  | image :: rest =>
      if negb (PyStr.contains "chip" image) then image_loop g rest countim ind df
      else
        _ <- global_bound (g_this_config g) ;;
        camera_filt <- select_product (image +:+ ".fits") ;;
        let camfilt := camera_filt.1 +:+ "_" +:+ camera_filt.2 in
        let ind := (4 + 2 * countim)%nat in
        let countim := (countim + 1)%nat in
        df <- loc_assign ind (ind + 1) [image +:+ "_counts"; image +:+ "_mag"] df ;;
        image_loop g rest countim (Some ind) df
  end.

(** Lines 266-300, from the two tables of lines 262-265: the manifest
    rows [infodf], which no later line reads, and the description
    column [descs]. *)
Definition assign_colnames (g : globals) (infodf : list (string * string))
    (descs : list string) (filts : list string)
  : pyresult (list schema_row * list string) :=
  let df := (fun d => (d, "")) <$> descs in
  df <- loc_assign 0 3 fakepos_columns df ;;
  imnames <- global_name (g_imnames g) ;;
  ind_df <- image_loop g imnames 0 None df ;;
  ind <- match ind_df.1 with
         | Some ind => Ok ind
         | None => Raise UnboundLocalError
         end ;;
  let fakeend := (ind + 2)%nat in
  df <- loc_assign fakeend (fakeend + 10) global_columns ind_df.2 ;;
  let df_filters := mapping_loop colname_mappings df [] in
  filters_final <- unique_ravel df_filters.2 ;;
  _ <- global_bound (g_my_job g) ;;
  Ok (df_filters.1, filters_final).

(** [pd.DataFrame(data=np.loadtxt(file, delimiter=sep, dtype=str),
    columns=[c1, c2])], the expression of lines 262-263 and of lines
    264-265. *)
Definition read_table (file sep : string) : pyresult (list (string * string)) :=
  rows <- loadtxt file sep ;;
  two_column_frame rows.

Definition name_columns (g : globals) (colfile infofile : string) (filts : list string)
  : pyresult (list schema_row * list string) :=
  infodf <- read_table infofile " " ;;
  coldf <- read_table colfile ". " ;;
  assign_colnames g infodf (coldf.*2) filts.

End SchemaResolver.

(** ** Catalog reader and writer: [read_fakestars] *)

(** A whitespace-delimited measurement file of numbers as its parser
    sees it, column by column: the fields of a column as integers
    where every one of them is an integer literal, as floats
    otherwise. *)
Inductive rawcol : Type :=
| RInt (zs : list Z)
| RFloat (xs : list float).

Record rawfile : Type := RawFile {
  raw_rows : nat;
  raw_cols : list rawcol
}.

(** [na_values=99.999] *)
Definition na_value (x : float) : float :=
  if PrimFloat.eqb x 99.999 then nan else x.

(** The column pandas builds: [int64] for integer fields, [float64]
    with the sentinel read as NaN otherwise. *)
Definition typed_column (c : rawcol) : column :=
  match c with
  | RInt zs => CInt zs
  | RFloat xs => CFloat (na_value <$> xs)
  end.

(** [dd.read_csv(file, header=None, usecols=usecols, names=names,
    na_values=99.999).compute()]: names must be distinct, every used
    index must exist in the file. *)
Definition read_csv (raw : rawfile) (usecols : list nat) (names : list string)
  : pyresult frame :=
  if negb (bool_decide (NoDup names)) then Raise ValueError
  else if negb (length usecols =? length names)%nat then Raise ValueError
  else
    match mapM (fun i => raw_cols raw !! i) usecols with
    | None => Raise ValueError
    | Some columns =>
        Ok (Frame (raw_rows raw) (zip names (typed_column <$> columns)))
    end.

(** [df[names]] for a list of labels *)
Definition frame_select (names : list string) (df : frame) : pyresult frame :=
  match mapM (fun n => (fun c => (n, c)) <$> frame_get n df) names with
  | Some columns => Ok (Frame (nrows df) columns)
  | None => Raise KeyError
  end.

(** [DataFrame.empty] *)
Definition frame_empty (df : frame) : bool :=
  (nrows df =? 0)%nat || (length (cols df) =? 0)%nat.

(** The HDF5 files by path, each an ordered list of keyed sections. *)
Abbreviation hdfstore := (gmap string (list (string * frame))).

Inductive hdfmode : Type := ModeW | ModeA.

(** [df.to_hdf(path, key=key, mode=mode, format='table', ..)]: mode 'w'
    starts the file afresh, mode 'a' keeps its sections; a table-format
    write of an empty frame stores no section.  The four kinds of
    column of the embedding are all kinds the table format stores. *)
Definition to_hdf (path key : string) (mode : hdfmode) (df : frame) (fs : hdfstore)
  : hdfstore :=
  let file := match mode with
              | ModeW => []
              | ModeA => default [] (fs !! path)
              end in
  <[path := if frame_empty df then file else Alist.set key df file]> fs.

(** [os.rename(src, dst)] *)
Definition os_rename (src dst : string) (fs : hdfstore) : pyresult hdfstore :=
  match fs !! src with
  | Some file => Ok (<[dst := file]> (delete src fs))
  | None => Raise (OtherError "FileNotFoundError")
  end.

(** What a caller that binds the result of a call receives. *)
Inductive pyret : Type :=
| PyNone
| PyFrame (df : frame).

(** The objects [read_fakestars] writes to. *)
Record world : Type := World {
  w_hdf : hdfstore;
  w_params : params
}.

Inductive run (A : Type) : Type :=
| Finished (v : A) (w : world)
| Failed (e : pyexn) (w : world).
Arguments Finished {A} v w.
Arguments Failed {A} e w.

Section CatalogWriter.

Variable all_pix2world :
  string -> column -> column -> pyresult (list float * list float).

(** [re.compile(pattern)] as [DataFrame.filter(regex=..)] calls it:
    the [search] of the compiled pattern on a label, or the [re.error]
    of a pattern that does not compile. *)
Variable re_compile : string -> pyresult (string -> bool).

(** The table [make_header_table] builds from the FITS headers, or
    the exception it ends with. *)
Variable header_table : pyresult frame.

(** File names of the products selected as astrometric references. *)
Variable drzfiles : list string.

(** The measurement files on disk. *)
Variable files : gmap string rawfile.

(** [df.filter(regex=pattern)] *)
Definition frame_filter (pattern : string) (df : frame) : pyresult frame :=
  search <- re_compile pattern ;;
  Ok (Frame (nrows df) (filter (fun nc => search nc.1 = true) (cols df))).

(** Lines 397-400: the store as the loop leaves it, and the exception
    that ends the loop, if one does. *)
Fixpoint write_filters (filters : list string) (df : frame) (outfile_full : string)
    (fs : hdfstore) : hdfstore * option pyexn :=
  match filters with
  | [] => (fs, None)
  | f :: rest =>
      match frame_filter ("_" +:+ f +:+ "_") df with
      | Raise e => (fs, Some e)
      | Ok section => write_filters rest df outfile_full (to_hdf outfile_full f ModeA section fs)
      end
  end.

Definition read_fakestars (g : globals) (w : world) (fakefile : string)
    (columns_df : list schema_row) (filters : list string) : run pyret :=
  let colnames := columns_df.*2 in
  let usecols := seq 0 (length columns_df) in
  match global_name (g_photfile g) with
  | Raise e => Failed e w
  | Ok photfile =>
  match (raw <- match files !! photfile with
                | Some raw => Ok raw
                | None => Raise (OtherError "FileNotFoundError")
                end ;;
         read_csv raw usecols colnames) with
  | Raise e => Failed e w
  | Ok df =>
  let outfile := photfile +:+ ".hdf5" in
  match header_table with
  | Raise e => Failed e w
  | Ok header_df =>
  let w := World (to_hdf outfile "fitsinfo" ModeW header_df (w_hdf w)) (w_params w) in
  match frame_select (filter (fun n => PyStr.contains "\ (" n = false) colnames) df with
  | Raise e => Failed e w
  | Ok df0 =>
  match cull_fakestars df0 filters (w_params w) with
  | Raised e _ p => Failed e (World (w_hdf w) p)
  | Returned df0 p =>
  let w := World (w_hdf w) (<["det_filters" := PStr (PyStr.join "," filters)]> p) in
  match (add_wcs all_pix2world df0 photfile drzfiles).2 with
  | Raise e => Failed e w
  | Ok df0 =>
  let w := World (to_hdf outfile "data" ModeA df0 (w_hdf w)) (w_params w) in
  let outfile_full := PyStr.replace ".hdf5" "_full.hdf5" outfile in
  match os_rename outfile outfile_full (w_hdf w) with
  | Raise e => Failed e w
  | Ok fs =>
  match write_filters filters df outfile_full fs with
  | (fs, Some e) => Failed e (World fs (w_params w))
  | (fs, None) => Finished PyNone (World fs (w_params w))
  end end end end end end end end.

End CatalogWriter.

(** * Vocabulary of the statements *)

(** The characters of a label. *)
Definition label_chars (s : string) : list Ascii.ascii := String.list_ascii_of_string s.

(** The two flag columns an iteration stores, from the outcome of its
    [try] body. *)
Definition flag_values (rows : nat)
    (r : pyresult (list bool * list bool * list bool)) : column * column :=
  match r with
  | Ok (snr, sharp, crowd) =>
      (CBool (zip_with andb snr sharp),
       CBool (zip_with andb (zip_with andb snr sharp) crowd))
  | Raise _ => (CFloat (replicate rows nan), CFloat (replicate rows nan))
  end.

(** The refinement between the two flags of one filter name. *)
Definition gst_refines_st (name : string) (df : frame) : Prop :=
  forall st gst,
    frame_get (name +:+ "_st") df = Some (CBool st) ->
    frame_get (name +:+ "_gst") df = Some (CBool gst) ->
    forall i : nat, gst !! i = Some true -> st !! i = Some true.

(** The flag computation of lines 156-160 for the identifier [filt]
    on the columns of [df], with the cut [snrcut] and the parameters
    [p]: the three conditions, or the exception that sends the
    iteration into its handler. *)
Definition filter_conditions (df : frame) (filt : string) (snrcut : pyval) (p : params)
  : pyresult (list bool * list bool * list bool) :=
  df_ <- unpack2 (PyStr.split "_" (PyStr.lower filt)) ;;
  cut_conditions df (PyStr.lower filt) (detector_class df_.1 df_.2 p).1 snrcut p.

Definition input_labels (name : string) : list string :=
  [name +:+ "_snr"; name +:+ "_sharp"; name +:+ "_crowd"].

(** The identifier splits into a detector and a filter token. *)
Definition id_ok (filt : string) : Prop :=
  exists d f, PyStr.split "_" (PyStr.lower filt) = [d; f].

(** Two frames that differ at most in the input and flag columns of [x]. *)
Definition agree_off (x : string) (df1 df2 : frame) : Prop :=
  nrows df1 = nrows df2 /\
  forall m, m ∉ input_labels x -> m <> x +:+ "_st" -> m <> x +:+ "_gst" ->
            frame_get m df1 = frame_get m df2.

(** ** Example inputs *)

(** Two rows measured in WFC3_F814W, labelled as [name_columns] labels
    combined photometry: with the lower-cased identifier. *)
Definition catalog_by_id : frame :=
  Frame 2 [("wfc3_f814w_snr", CFloat [5.0; 2.0]%float);
           ("wfc3_f814w_sharp", CFloat [0.1; 0.1]%float);
           ("wfc3_f814w_crowd", CFloat [1.0; 1.0]%float)].

(** The same two rows labelled with the bare filter name. *)
Definition catalog_by_filter : frame :=
  Frame 2 [("f814w_snr", CFloat [5.0; 2.0]%float);
           ("f814w_sharp", CFloat [0.1; 0.1]%float);
           ("f814w_crowd", CFloat [1.0; 1.0]%float)].

(** A catalog of two filters in which WFC3_F814W lacks its sharpness
    and crowding columns, and the same catalog with them. *)
Definition catalog_missing : frame :=
  Frame 2 [("wfc3_f814w_snr", CFloat [5.0; 2.0]%float);
           ("acs_f475w_snr", CFloat [6.0; 7.0]%float);
           ("acs_f475w_sharp", CFloat [0.1; 0.9]%float);
           ("acs_f475w_crowd", CFloat [1.0; 1.0]%float)].

Definition catalog_repaired : frame :=
  frame_set "wfc3_f814w_crowd" (CFloat [1.0; 1.0]%float)
    (frame_set "wfc3_f814w_sharp" (CFloat [0.1; 0.1]%float) catalog_missing).

(** A catalog with the four input-position columns followed by the
    pixel positions, and a projection that returns the pixel positions
    themselves as coordinates. *)
Definition catalog_xy : frame :=
  Frame 2 [("ext_in", CFloat [0.0; 0.0]%float);
           ("chip_in", CFloat [1.0; 1.0]%float);
           ("x_in", CFloat [10.0; 20.0]%float);
           ("y_in", CFloat [30.0; 40.0]%float);
           ("x", CFloat [10.5; 20.5]%float);
           ("y", CFloat [30.5; 40.5]%float)].

Definition pix2world_identity (drzfile : string) (x y : column)
  : pyresult (list float * list float) :=
  xs <- numeric x ;;
  ys <- numeric y ;;
  Ok (xs, ys).

(** Scenario A: a manifest of one image, four position columns, the
    two columns of the image, the eleven global columns and one
    combined column. *)
Definition scenario_a_manifest : list (list string) := [["img1.chip1"; "1"]].

Definition scenario_a_head : list string :=
  ["Input extension";
   "Input chip";
   "Input X position";
   "Input Y position";
   "Input counts of img1.chip1";
   "Input magnitude of img1.chip1";
   "Extension (zero for base image)";
   "Chip (for three-dimensional FITS image)";
   "Object X position on reference image (or first image, if no reference)";
   "Object Y position on reference image (or first image, if no reference)";
   "Chi for fit";
   "Signal-to-noise";
   "Object sharpness";
   "Object roundness";
   "Direction of major axis (if not round)";
   "Crowding";
   "Object type (1=bright star, 2=faint, 3=elongated, 4=hot pixel, 5=extended)"].

Definition scenario_a_descs : list string :=
  scenario_a_head ++ ["Signal-to-noise, filter 'F814W'"].

Definition scenario_a_head_names : list string :=
  ["ext_in"; "chip_in"; "x_in"; "y_in"; "img1.chip1_counts"; "img1.chip1_mag";
   "ext"; "chip"; "x"; "y"; "chi_gl"; "snr_gl"; "sharp_gl"; "round_gl";
   "majax_gl"; "crowd_gl"; "objtype_gl"].

(** The names Scenario A expects, and the names the resolution rules
    give. *)
Definition scenario_a_claimed : list string := scenario_a_head_names ++ ["f814w_snr"].

Definition scenario_a_resolved : list string :=
  scenario_a_head_names ++ ["filter f814w_snr"].

(** The thirteen per-fragment filter arrays of Scenario A: only the
    ninth fragment, "Signal-to-noise,", matches a column. *)
Definition scenario_a_filters_all : list (list string) :=
  replicate 8 [] ++ [["filter F814W"]] ++ replicate 4 [].

(** Descriptions with two columns that no fragment matches. *)
Definition unmatched_descs : list string :=
  scenario_a_head ++ ["Unknown quantity A"; "Unknown quantity B"].

(** The lines of a description file as [np.loadtxt] splits them at
    the full stop and the space after the index. *)
Definition numbered (descs : list string) : list (list string) :=
  imap (fun i d => [pretty (S i); d]) descs.

(** [np.loadtxt] of a numpy that accepts both separators, on a
    directory given as the rows of its files. *)
Definition loadtxt_from (dir : list (string * list (list string))) (file sep : string)
  : pyresult (list (list string)) :=
  match Alist.get file dir with
  | Some rows => Ok rows
  | None => Raise (OtherError "FileNotFoundError")
  end.

(** The two files of Scenario A. *)
Definition scenario_a_dir : list (string * list (list string)) :=
  [("field.phot.info", scenario_a_manifest);
   ("field.phot.columns", numbered scenario_a_descs)].

(** A manifest of two lines, the image and the drizzled reference,
    with description files of nineteen and of three lines. *)
Definition two_line_manifest : list (list string) :=
  [["img1.chip1"; "1"]; ["field_drz"; "0"]].

Definition unmatched_dir : list (string * list (list string)) :=
  [("field.phot.info", two_line_manifest);
   ("field.phot.columns", numbered unmatched_descs)].

Definition short_dir : list (string * list (list string)) :=
  [("field.phot.info", two_line_manifest);
   ("field.phot.columns",
    numbered ["Input extension"; "Input chip"; "Input X position"])].

(** An environment in which the two names are bound, [imnames] to the
    names of the manifest, and the product lookup answers. *)
Definition bound_globals : globals :=
  Globals (Some ["img1.chip1"; "field_drz"]) true true (Some "field.phot").

Definition select_wfc3 (filename : string) : pyresult (string * string) :=
  Ok ("WFC3", "F814W").

(** [np.unique] on rows of unequal length as numpy 1.24 and later
    behave: the array cannot be built. *)
Definition unique_refused (rows : list (list string)) : pyresult (list string) :=
  Raise ValueError.

(** The table of Scenario A after the position names are set (line
    268) and after the names of the image (line 280). *)
Definition scenario_a_positions : list schema_row :=
  zip scenario_a_descs (fakepos_columns ++ replicate 14 "").

Definition scenario_a_images : list schema_row :=
  zip scenario_a_descs
    (fakepos_columns ++ ["img1.chip1_counts"; "img1.chip1_mag"] ++ replicate 12 "").

(** A run of the writer: the columns of Scenario A's head, the three
    combined columns of WFC3_F814W and one single-exposure column of
    image [img1.chip1]; a measurement file of two rows; one header
    row; no astrometric reference. *)
Definition example_columns : list schema_row :=
  zip scenario_a_head scenario_a_head_names ++
  [("Signal-to-noise, WFC3_F814W", "wfc3_f814w_snr");
   ("Sharpness, WFC3_F814W", "wfc3_f814w_sharp");
   ("Crowding, WFC3_F814W", "wfc3_f814w_crowd");
   ("Signal-to-noise, img1.chip1 (WFC3_F814W, 100.0 sec)", "img1.chip1_snr")].

Definition example_files : gmap string rawfile :=
  {[ "field.phot" := RawFile 2 (replicate 21 (RFloat [5.0; 0.25]%float)) ]}.

Definition example_header : pyresult frame :=
  Ok (Frame 1 [("FILTER", CObj ["F814W"])]).

(** [re.compile] on the patterns of the examples: a pattern with an
    opening parenthesis that nothing closes does not compile; for a
    pattern of letters, digits and underscores the search is a
    substring search. *)
Definition re_compile_plain (pattern : string) : pyresult (string -> bool) :=
  if PyStr.contains "(" pattern && negb (PyStr.contains ")" pattern)
  then Raise (OtherError "re.error")
  else Ok (PyStr.contains pattern).

Definition example_run : run pyret :=
  read_fakestars pix2world_identity re_compile_plain example_header [] example_files
    (script_globals "field.phot") (World ∅ ∅) "field.phot.fake"
    example_columns ["WFC3_F814W"].

Definition run_world {A} (r : run A) : world :=
  match r with
  | Finished _ w => w
  | Failed _ w => w
  end.

(** The labels of the section [key] of the file [path]. *)
Definition section_labels (path key : string) (w : world) : option (list string) :=
  file ← w_hdf w !! path ;
  labels <$> Alist.get key file.

(** ** Further vocabulary *)

(** How often a character occurs in a string. *)
Fixpoint count_char (c : Ascii.ascii) (s : string) : nat :=
  match s with
  | EmptyString => 0
  | String a s' => (if Ascii.eqb a c then 1 else 0) + count_char c s'
  end.

(** The eight cut parameters [cull_fakestars] can store, with the
    values of lines 112-152. *)
Definition default_cuts : list (string * float) :=
  [("ir_sharp", 0.15%float); ("ir_crowd", 2.25%float);
   ("uvis_sharp", 0.15%float); ("uvis_crowd", 1.3%float);
   ("wfc_sharp", 0.2%float); ("wfc_crowd", 2.25%float);
   ("nircam_sharp", 0.01%float); ("nircam_crowd", 0.5%float)].

(** A parameter object [p'] that differs from [p] only by defaults
    stored under keys that [p] lacked. *)
Definition gained_defaults (p p' : params) : Prop :=
  forall k,
    p' !! k = p !! k \/
    (p !! k = None /\ exists v, (k, v) ∈ default_cuts /\ p' !! k = Some (PFloat v)).

(** A catalog with a NaN signal-to-noise in its second row. *)
Definition catalog_nan : frame :=
  Frame 2 [("wfc3_f814w_snr", CFloat [5.0%float; nan]);
           ("wfc3_f814w_sharp", CFloat [0.1; 0.1]%float);
           ("wfc3_f814w_crowd", CFloat [1.0; 1.0]%float)].

(** A catalog measured with an instrument that has no class. *)
Definition catalog_wfpc2 : frame :=
  Frame 2 [("wfpc2_f555w_snr", CFloat [5.0; 2.0]%float);
           ("wfpc2_f555w_sharp", CFloat [0.1; 0.1]%float);
           ("wfpc2_f555w_crowd", CFloat [1.0; 1.0]%float)].

(** The two flags of [name] are not true in row [i]; the [_st] flag
    only when [strict] asks for it. *)
Definition row_fails (name : string) (i : nat) (strict : Prop) (df : frame) : Prop :=
  (forall gst, frame_get (name +:+ "_gst") df = Some (CBool gst) -> gst !! i <> Some true) /\
  (strict -> forall st, frame_get (name +:+ "_st") df = Some (CBool st) ->
             st !! i <> Some true).

(** A column table in which two indices share the empty name, a store
    that already holds a file, and a run of the writer on that store
    with an identifier that does not unpack. *)
Definition shared_name_columns : list schema_row :=
  zip unmatched_descs (scenario_a_head_names ++ [""; ""]).

Definition example_store : hdfstore :=
  {[ "earlier.hdf5" := [("data", catalog_xy)] ]}.

Definition failing_run : run pyret :=
  read_fakestars pix2world_identity re_compile_plain example_header [] example_files
    (script_globals "field.phot") (World example_store ∅) "field.phot.fake"
    example_columns ["F814W"].

(** The catalog [catalog_xy] once [add_wcs] has attached coordinates. *)
Definition catalog_radec : frame :=
  Frame 2 [("ext_in", CFloat [0.0; 0.0]%float);
           ("chip_in", CFloat [1.0; 1.0]%float);
           ("x_in", CFloat [10.0; 20.0]%float);
           ("y_in", CFloat [30.0; 40.0]%float);
           ("ra", CFloat [10.5; 20.5]%float);
           ("dec", CFloat [30.5; 40.5]%float);
           ("x", CFloat [10.5; 20.5]%float);
           ("y", CFloat [30.5; 40.5]%float)].

(** The image names that pass the test of line 271. *)
Definition chip_images (imnames : list string) : list string :=
  List.filter (PyStr.contains "chip") imnames.

(** An environment and a manifest that name no chip image. *)
Definition drz_globals : globals :=
  Globals (Some ["field_drz"; "field_ref"]) true true (Some "field.phot").

Definition drz_dir : list (string * list (list string)) :=
  [("field.phot.info", [["field_drz"; "0"]; ["field_ref"; "0"]]);
   ("field.phot.columns", numbered scenario_a_descs)].

(** A catalog without rows that lacks the columns of its filter, and
    a run of the writer with an identifier whose pattern does not
    compile. *)
Definition catalog_no_rows : frame := Frame 0 [("x", CFloat []); ("y", CFloat [])].


(** * Properties *)

(** ** Column labels *)

Lemma label_chars_app s t : label_chars (s +:+ t) = label_chars s ++ label_chars t.
Proof. induction s as [|c s IH]; simpl; [done | by rewrite IH]. Qed.

Lemma label_chars_inj s t : label_chars s = label_chars t -> s = t.
Proof.
  intros H. rewrite <- (String.string_of_list_ascii_of_string s).
  rewrite <- (String.string_of_list_ascii_of_string t). unfold label_chars in H.
  by rewrite H.
Qed.

(** Two labels compared from their last character backwards. *)
Lemma rev_label_chars s t : s = t -> rev (label_chars s) = rev (label_chars t).
Proof. by intros ->. Qed.

Lemma rev_label_inj s t : rev (label_chars s) = rev (label_chars t) -> s = t.
Proof.
  intros H. apply label_chars_inj.
  rewrite <- (rev_involutive (label_chars s)), <- (rev_involutive (label_chars t)).
  by rewrite H.
Qed.

(** [label_eq H] turns an equation between two suffixed labels into
    the equations between their characters, read from the end. *)
Ltac label_eq H :=
  apply rev_label_chars in H;
  rewrite !label_chars_app in H; simpl in H;
  rewrite !rev_app_distr in H; simpl in H;
  simplify_eq.

Lemma st_label_inj n m : n +:+ "_st" = m +:+ "_st" -> n = m.
Proof. intros H. label_eq H. by apply rev_label_inj. Qed.

Lemma gst_label_inj n m : n +:+ "_gst" = m +:+ "_gst" -> n = m.
Proof. intros H. label_eq H. by apply rev_label_inj. Qed.

Lemma st_gst_label n m : n +:+ "_st" <> m +:+ "_gst".
Proof. intros H. label_eq H. Qed.

Lemma snr_st_label n m : n +:+ "_snr" <> m +:+ "_st".
Proof. intros H. label_eq H. Qed.

Lemma snr_gst_label n m : n +:+ "_snr" <> m +:+ "_gst".
Proof. intros H. label_eq H. Qed.

Lemma sharp_st_label n m : n +:+ "_sharp" <> m +:+ "_st".
Proof. intros H. label_eq H. Qed.

Lemma sharp_gst_label n m : n +:+ "_sharp" <> m +:+ "_gst".
Proof. intros H. label_eq H. Qed.

Lemma crowd_st_label n m : n +:+ "_crowd" <> m +:+ "_st".
Proof. intros H. label_eq H. Qed.

Lemma crowd_gst_label n m : n +:+ "_crowd" <> m +:+ "_gst".
Proof. intros H. label_eq H. Qed.

(** ** Labelled entries *)

Lemma alist_get_set_eq {A} name (c : A) l : Alist.get name (Alist.set name c l) = Some c.
Proof.
  induction l as [|[n c0] l IH]; simpl.
  - by rewrite String.eqb_refl.
  - destruct (String.eqb n name) eqn:E; simpl; rewrite E; [done | exact IH].
Qed.

Lemma alist_get_set_ne {A} name other (c : A) l :
  name <> other -> Alist.get other (Alist.set name c l) = Alist.get other l.
Proof.
  intros Hne. induction l as [|[n c0] l IH]; simpl.
  - destruct (String.eqb name other) eqn:E; [|done].
    apply String.eqb_eq in E. done.
  - destruct (String.eqb n name) eqn:E; simpl.
    + apply String.eqb_eq in E as ->.
      destruct (String.eqb name other) eqn:E'; [|done].
      apply String.eqb_eq in E'. done.
    + by rewrite IH.
Qed.

Lemma frame_get_set_eq name c df : frame_get name (frame_set name c df) = Some c.
Proof. apply alist_get_set_eq. Qed.

Lemma frame_get_set_ne name other c df :
  name <> other -> frame_get other (frame_set name c df) = frame_get other df.
Proof. apply alist_get_set_ne. Qed.

(** ** One filter of the classifier *)

Lemma loc_set_nan_ok name df df' :
  loc_set_nan name df = Ok df' -> df' = frame_set name (nan_column df) df.
Proof. unfold loc_set_nan. destruct (_ && _); [done|]. by intros [= <-]. Qed.

Lemma loc_set_nan_raise name df e :
  loc_set_nan name df = Raise e -> e = ValueError /\ nrows df = 0.
Proof.
  unfold loc_set_nan. destruct (nrows df =? 0)%nat eqn:Hrows; simpl; [|done].
  apply Nat.eqb_eq in Hrows. destruct (negb _); [|done]. by intros [= <-].
Qed.

Lemma loc_set_nan_rows name df :
  0 < nrows df -> loc_set_nan name df = Ok (frame_set name (nan_column df) df).
Proof.
  intros Hrows. unfold loc_set_nan.
  destruct (nrows df =? 0)%nat eqn:E; [apply Nat.eqb_eq in E; lia | done].
Qed.

(** The three ways an iteration ends: it has stored both flags, or
    the handler was stopped at its first or at its second store, on
    a frame without rows. *)
Lemma cull_filter_cases df name d snrcut p :
  let v := flag_values (nrows df) (cut_conditions df name d snrcut p) in
  cull_filter df name d snrcut p =
    (frame_set (name +:+ "_gst") v.2 (frame_set (name +:+ "_st") v.1 df), None) \/
  nrows df = 0 /\
  (cull_filter df name d snrcut p = (df, Some ValueError) \/
   cull_filter df name d snrcut p =
     (frame_set (name +:+ "_st") (nan_column df) df, Some ValueError)).
Proof.
  unfold cull_filter.
  destruct (cut_conditions df name d snrcut p) as [[[snr sharp] crowd]|e]; [by left|].
  destruct (loc_set_nan (name +:+ "_st") df) as [df1|e1] eqn:H1.
  - apply loc_set_nan_ok in H1 as ->.
    destruct (loc_set_nan (name +:+ "_gst") _) as [df2|e2] eqn:H2.
    + apply loc_set_nan_ok in H2 as ->. by left.
    + apply loc_set_nan_raise in H2 as [-> H2]. right. split; [done | by right].
  - apply loc_set_nan_raise in H1 as [-> H1]. right. split; [done | by left].
Qed.

Lemma cull_filter_stores df name d snrcut p df' :
  cull_filter df name d snrcut p = (df', None) ->
  df' =
  let v := flag_values (nrows df) (cut_conditions df name d snrcut p) in
  frame_set (name +:+ "_gst") v.2 (frame_set (name +:+ "_st") v.1 df).
Proof.
  intros H. destruct (cull_filter_cases df name d snrcut p) as [E|[_ [E|E]]];
    rewrite E in H; by simplify_eq.
Qed.

Lemma cull_filter_rows df name d snrcut p :
  0 < nrows df -> (cull_filter df name d snrcut p).2 = None.
Proof.
  intros Hrows. destruct (cull_filter_cases df name d snrcut p) as [->|[H0 _]]; [done|lia].
Qed.

Lemma cull_filter_nrows df name d snrcut p :
  nrows (cull_filter df name d snrcut p).1 = nrows df.
Proof.
  by destruct (cull_filter_cases df name d snrcut p) as [->|[_ [->| ->]]].
Qed.

Lemma cull_filter_st df name d snrcut p df' :
  cull_filter df name d snrcut p = (df', None) ->
  frame_get (name +:+ "_st") df' =
  Some (flag_values (nrows df) (cut_conditions df name d snrcut p)).1.
Proof.
  intros ->%cull_filter_stores. simpl.
  rewrite frame_get_set_ne, frame_get_set_eq; [done|].
  intros H. symmetry in H. by apply st_gst_label in H.
Qed.

Lemma cull_filter_gst df name d snrcut p df' :
  cull_filter df name d snrcut p = (df', None) ->
  frame_get (name +:+ "_gst") df' =
  Some (flag_values (nrows df) (cut_conditions df name d snrcut p)).2.
Proof. intros ->%cull_filter_stores. simpl. by rewrite frame_get_set_eq. Qed.

(** Frame condition: an iteration writes its own two flag columns only. *)
Lemma cull_filter_other df name d snrcut p other :
  other <> name +:+ "_st" -> other <> name +:+ "_gst" ->
  frame_get other (cull_filter df name d snrcut p).1 = frame_get other df.
Proof.
  intros H1 H2.
  destruct (cull_filter_cases df name d snrcut p) as [->|[_ [->| ->]]]; simpl;
    by rewrite ?frame_get_set_ne.
Qed.

(** The [try] body reads the three input columns of its filter and
    nothing else of the frame. *)
Lemma cut_conditions_reads df1 df2 name d snrcut p :
  frame_get (name +:+ "_snr") df1 = frame_get (name +:+ "_snr") df2 ->
  frame_get (name +:+ "_sharp") df1 = frame_get (name +:+ "_sharp") df2 ->
  frame_get (name +:+ "_crowd") df1 = frame_get (name +:+ "_crowd") df2 ->
  cut_conditions df1 name d snrcut p = cut_conditions df2 name d snrcut p.
Proof.
  intros H1 H2 H3. unfold cut_conditions, loc_col. by rewrite H1, H2, H3.
Qed.

Lemma zip_andb_true (l k : list bool) (i : nat) :
  zip_with andb l k !! i = Some true -> l !! i = Some true /\ k !! i = Some true.
Proof.
  rewrite lookup_zip_with. destruct (l !! i) as [[]|], (k !! i) as [[]|]; simpl; naive_solver.
Qed.

Lemma cull_filter_refines df name d snrcut p df' :
  cull_filter df name d snrcut p = (df', None) -> gst_refines_st name df'.
Proof.
  intros Hdone st gst. rewrite (cull_filter_st _ _ _ _ _ _ Hdone).
  rewrite (cull_filter_gst _ _ _ _ _ _ Hdone).
  destruct (cut_conditions df name d snrcut p) as [[[snr sharp] crowd]|e]; simpl;
    intros Hst Hgst i Hi; simplify_eq.
  by apply zip_andb_true in Hi as [? _].
Qed.

Lemma cull_filter_keeps_refines df name d snrcut p other df' :
  cull_filter df name d snrcut p = (df', None) ->
  gst_refines_st other df -> gst_refines_st other df'.
Proof.
  intros Hdone H. destruct (decide (other = name)) as [->|Hne].
  - by eapply cull_filter_refines.
  - intros st gst.
    pose proof (cull_filter_other df name d snrcut p) as Hother.
    rewrite Hdone in Hother. cbn [fst] in Hother.
    rewrite !Hother; [apply H | | | | ].
    + intros E. symmetry in E. by apply st_gst_label in E.
    + intros E. by apply gst_label_inj in E.
    + intros E. by apply st_label_inj in E.
    + apply st_gst_label.
Qed.

Lemma cull_loop_refines snrcut filters : forall df p df' p' name,
  cull_loop snrcut filters df p = Returned df' p' ->
  gst_refines_st name df \/ name ∈ PyStr.lower <$> filters ->
  gst_refines_st name df'.
Proof.
  induction filters as [|filt rest IH]; simpl; intros df p df' p' name Hrun Hname.
  - simplify_eq. destruct Hname as [H|H]; [done | by apply elem_of_nil in H].
  - destruct (unpack2 _) as [[d f]|e]; [|done].
    destruct (detector_class d f p) as [d' p1] eqn:Hclass.
    destruct (cull_filter _ _ _ _ _) as [df1 [e|]] eqn:Hdone; [done|].
    eapply IH; [exact Hrun|].
    destruct Hname as [H|H].
    + left. by eapply cull_filter_keeps_refines.
    + apply elem_of_cons in H as [->|H]; [left; by eapply cull_filter_refines | by right].
Qed.

(** C1. Whenever [cull_fakestars] returns and has computed boolean flag
    columns for a filter of its list, every row whose [_gst] flag is
    true has its [_st] flag true. *)
Theorem cull_fakestars_gst_implies_st df filter_detectors p df' p' filt st gst (i : nat) :
  cull_fakestars df filter_detectors p = Returned df' p' ->
  filt ∈ filter_detectors ->
  frame_get (PyStr.lower filt +:+ "_st") df' = Some (CBool st) ->
  frame_get (PyStr.lower filt +:+ "_gst") df' = Some (CBool gst) ->
  gst !! i = Some true ->
  st !! i = Some true.
Proof.
  intros Hrun Hin Hst Hgst Hi.
  eapply (cull_loop_refines _ _ _ _ _ _ (PyStr.lower filt) Hrun); [|done..].
  right. by apply list_elem_of_fmap_2.
Qed.

Lemma cull_fakestars_gst_implies_st_witness :
  "WFC3_F814W" ∈ ["WFC3_F814W"] /\ [true; false] !! 0%nat = Some true.
Proof.
  split; [apply list_elem_of_here|].
  apply (cull_fakestars_gst_implies_st catalog_by_id ["WFC3_F814W"] ∅
           (outcome_frame (cull_fakestars catalog_by_id ["WFC3_F814W"] ∅))
           (outcome_params (cull_fakestars catalog_by_id ["WFC3_F814W"] ∅))
           "WFC3_F814W" [true; false] [true; false] 0).
  - vm_compute. reflexivity.
  - apply list_elem_of_here.
  - vm_compute. reflexivity.
  - vm_compute. reflexivity.
  - reflexivity.
Defined.

(** ** Scenarios B and C *)

Lemma wfc3_f814w_unpacks :
  unpack2 (PyStr.split "_" (PyStr.lower "WFC3_F814W")) = Ok ("wfc3", "f814w").
Proof. reflexivity. Qed.

(** 'f1' does not occur in 'f814w': the identifier is of class uvis. *)
Lemma wfc3_f814w_class :
  detector_class "wfc3" "f814w" ∅ =
  ("uvis", <["uvis_crowd" := PFloat 1.3]> (<["uvis_sharp" := PFloat 0.15]> ∅)).
Proof. vm_compute. reflexivity. Qed.

(** C5, as stated: with the columns labelled by the bare filter name
    the classifier finds none of its inputs; it creates no [f814w_st]
    or [f814w_gst] column and marks the flags of [wfc3_f814w]
    undefined. *)
Lemma scenario_b_bare_filter_labels :
  let df' := outcome_frame (cull_fakestars catalog_by_filter ["WFC3_F814W"] ∅) in
  frame_get "f814w_st" df' = None /\
  frame_get "f814w_gst" df' = None /\
  frame_get "wfc3_f814w_st" df' = Some (CFloat [nan; nan]) /\
  frame_get "wfc3_f814w_gst" df' = Some (CFloat [nan; nan]).
Proof. vm_compute. done. Qed.

(** C5, amended: the input columns carry the lower-cased identifier
    [wfc3_f814w]; then, with an empty parameter object, a row with
    snr 5.0, sharp 0.1 and crowd 1.0 gets both flags true and a row
    with snr 2.0 gets both false, in columns [wfc3_f814w_st] and
    [wfc3_f814w_gst]. *)
Theorem scenario_b_c_by_identifier df snr sharp crowd :
  frame_get "wfc3_f814w_snr" df = Some (CFloat snr) ->
  frame_get "wfc3_f814w_sharp" df = Some (CFloat sharp) ->
  frame_get "wfc3_f814w_crowd" df = Some (CFloat crowd) ->
  exists df' p' st gst,
    cull_fakestars df ["WFC3_F814W"] ∅ = Returned df' p' /\
    frame_get "wfc3_f814w_st" df' = Some (CBool st) /\
    frame_get "wfc3_f814w_gst" df' = Some (CBool gst) /\
    forall i : nat,
      sharp !! i = Some 0.1%float -> crowd !! i = Some 1.0%float ->
      (snr !! i = Some 5.0%float -> st !! i = Some true /\ gst !! i = Some true) /\
      (snr !! i = Some 2.0%float -> st !! i = Some false /\ gst !! i = Some false).
Proof.
  intros Hsnr Hsharp Hcrowd.
  unfold cull_fakestars, cull_loop. rewrite wfc3_f814w_unpacks, wfc3_f814w_class.
  set (p' := <["uvis_crowd" := _]> _).
  assert (Hc : cut_conditions df "wfc3_f814w" "uvis" (read_snrcut ∅) p' =
               Ok ((fun x => PrimFloat.ltb 4.0 x) <$> snr,
                   (fun x => PrimFloat.ltb x 0.15) <$>
                     ((fun x => PrimFloat.mul x x) <$> sharp),
                   (fun x => PrimFloat.ltb x 1.3) <$> crowd)).
  { unfold cut_conditions, loc_col.
    change ("wfc3_f814w" +:+ "_snr") with "wfc3_f814w_snr".
    change ("wfc3_f814w" +:+ "_sharp") with "wfc3_f814w_sharp".
    change ("wfc3_f814w" +:+ "_crowd") with "wfc3_f814w_crowd".
    rewrite Hsnr, Hsharp, Hcrowd. vm_compute. reflexivity. }
  change (PyStr.lower "WFC3_F814W") with "wfc3_f814w".
  destruct (cull_filter df "wfc3_f814w" "uvis" (read_snrcut ∅) p') as [df1 [e|]] eqn:Hdone.
  { unfold cull_filter in Hdone. by rewrite Hc in Hdone. }
  eexists df1, p', _, _. split; [reflexivity|].
  pose proof (cull_filter_st _ _ _ _ _ _ Hdone) as Hst.
  pose proof (cull_filter_gst _ _ _ _ _ _ Hdone) as Hgst.
  rewrite Hc in Hst, Hgst. simpl in Hst, Hgst.
  split; [exact Hst|]. split; [exact Hgst|].
  intros i Hs Hcr.
  rewrite !lookup_zip_with, !list_lookup_fmap, Hs, Hcr.
  split; intros ->; done.
Qed.

Lemma scenario_b_c_by_identifier_witness :
  exists df' p' st gst,
    cull_fakestars catalog_by_id ["WFC3_F814W"] ∅ = Returned df' p' /\
    frame_get "wfc3_f814w_st" df' = Some (CBool st) /\
    frame_get "wfc3_f814w_gst" df' = Some (CBool gst) /\
    forall i : nat,
      [0.1; 0.1]%float !! i = Some 0.1%float -> [1.0; 1.0]%float !! i = Some 1.0%float ->
      ([5.0; 2.0]%float !! i = Some 5.0%float -> st !! i = Some true /\ gst !! i = Some true) /\
      ([5.0; 2.0]%float !! i = Some 2.0%float -> st !! i = Some false /\ gst !! i = Some false).
Proof.
  apply (scenario_b_c_by_identifier catalog_by_id
           [5.0; 2.0]%float [0.1; 0.1]%float [1.0; 1.0]%float); reflexivity.
Defined.

(** ** The parameter object under classification *)

Lemma fill_default_other key dflt p k :
  key <> k -> fill_default key dflt p !! k = p !! k.
Proof.
  intros Hne. unfold fill_default. destruct (p !! key); [done|].
  by rewrite lookup_insert_ne.
Qed.

Lemma fill_default_filled key dflt p : is_Some (fill_default key dflt p !! key).
Proof.
  unfold fill_default. destruct (p !! key) eqn:E; [by rewrite E|].
  rewrite lookup_insert_eq. by eexists.
Qed.

Lemma fill_default_keeps key dflt p k :
  is_Some (p !! k) -> is_Some (fill_default key dflt p !! k).
Proof.
  intros H. destruct (decide (key = k)) as [->|Hne].
  - apply fill_default_filled.
  - by rewrite fill_default_other.
Qed.

Lemma detector_class_snrcut d f p :
  (detector_class d f p).2 !! "snrcut" = p !! "snrcut".
Proof.
  unfold detector_class.
  repeat (case_match; simplify_eq); simpl; by rewrite ?fill_default_other.
Qed.

Lemma detector_class_keeps d f p k :
  is_Some (p !! k) -> is_Some ((detector_class d f p).2 !! k).
Proof.
  intros H. unfold detector_class.
  repeat (case_match; simplify_eq); simpl; by repeat apply fill_default_keeps.
Qed.

(** The class an identifier is given does not depend on the parameters. *)
Lemma detector_class_name d f p q : (detector_class d f p).1 = (detector_class d f q).1.
Proof.
  unfold detector_class.
  destruct (String.eqb d "wfc3" && PyStr.contains "f1" f); simpl;
    destruct (String.eqb d "wfc3" && negb (PyStr.contains "f1" f)); simpl;
    destruct (String.eqb d "acs"); simpl;
    destruct (String.eqb d "nircam"); reflexivity.
Qed.

(** For the three instruments with a class of their own, both cut
    parameters of the class are in the object afterwards. *)
Lemma detector_class_fills d f p :
  d ∈ ["wfc3"; "acs"; "nircam"] ->
  is_Some ((detector_class d f p).2 !! ((detector_class d f p).1 +:+ "_sharp")) /\
  is_Some ((detector_class d f p).2 !! ((detector_class d f p).1 +:+ "_crowd")).
Proof.
  intros Hd. repeat (apply elem_of_cons in Hd as [->|Hd]); [| | |by apply elem_of_nil in Hd];
    unfold detector_class; simpl; destruct (PyStr.contains "f1" f); simpl;
    (split; [apply fill_default_keeps|]; apply fill_default_filled).
Qed.

Lemma cull_loop_snrcut snrcut filters : forall df p,
  outcome_params (cull_loop snrcut filters df p) !! "snrcut" = p !! "snrcut".
Proof.
  induction filters as [|filt rest IH]; simpl; intros df p; [done|].
  destruct (unpack2 _) as [[d f]|e]; [|done].
  pose proof (detector_class_snrcut d f p) as Hc.
  destruct (detector_class d f p) as [d' p1]. simpl in Hc.
  destruct (cull_filter _ _ _ _ _) as [df1 [e0|]]; [exact Hc|]. by rewrite IH.
Qed.

Lemma cull_loop_keeps snrcut filters : forall df p k,
  is_Some (p !! k) -> is_Some (outcome_params (cull_loop snrcut filters df p) !! k).
Proof.
  induction filters as [|filt rest IH]; simpl; intros df p k Hk; [done|].
  destruct (unpack2 _) as [[d f]|e]; [|done].
  pose proof (detector_class_keeps d f p k Hk) as Hc.
  destruct (detector_class d f p) as [d' p1]. simpl in Hc.
  destruct (cull_filter _ _ _ _ _) as [df1 [e0|]]; [exact Hc|]. by apply IH.
Qed.

Lemma cull_loop_fills snrcut filters : forall df p df' p' filt d f,
  cull_loop snrcut filters df p = Returned df' p' ->
  filt ∈ filters ->
  unpack2 (PyStr.split "_" (PyStr.lower filt)) = Ok (d, f) ->
  d ∈ ["wfc3"; "acs"; "nircam"] ->
  is_Some (p' !! ((detector_class d f p).1 +:+ "_sharp")) /\
  is_Some (p' !! ((detector_class d f p).1 +:+ "_crowd")).
Proof.
  induction filters as [|filt0 rest IH]; simpl; intros df p df' p' filt d f Hrun Hin Hsplit Hd.
  - by apply elem_of_nil in Hin.
  - destruct (unpack2 (PyStr.split "_" (PyStr.lower filt0))) as [[d0 f0]|e] eqn:H0; [|done].
    apply elem_of_cons in Hin as [->|Hin].
    + rewrite Hsplit in H0. simplify_eq.
      pose proof (detector_class_fills d0 f0 p Hd) as [Hs Hc].
      destruct (detector_class d0 f0 p) as [d' p1]. simpl in Hs, Hc.
      destruct (cull_filter _ _ _ _ _) as [df1 [e0|]]; [done|].
      pose proof (cull_loop_keeps snrcut rest df1 p1) as Hk.
      rewrite Hrun in Hk. simpl in Hk. split; by apply Hk.
    + destruct (detector_class d0 f0 p) as [d' p1] eqn:E.
      destruct (cull_filter _ _ _ _ _) as [df1 [e0|]]; [done|].
      rewrite (detector_class_name d f p p1). eapply IH; eauto.
Qed.

(** C9. [cull_fakestars] leaves the key [snrcut] of the parameter
    object as it found it, also when the call ends in an exception;
    when the key is absent the cut 4.0 is used for the run without
    being stored; the sharpness and crowding cuts of the class of a
    wfc3, acs or nircam identifier, in contrast, are in the object
    after the call. *)
Theorem cull_fakestars_snrcut_stays_local df filter_detectors p :
  outcome_params (cull_fakestars df filter_detectors p) !! "snrcut" = p !! "snrcut" /\
  (p !! "snrcut" = None ->
   cull_fakestars df filter_detectors p = cull_loop (PFloat 4.0) filter_detectors df p) /\
  (forall df' p' filt d f,
     cull_fakestars df filter_detectors p = Returned df' p' ->
     filt ∈ filter_detectors ->
     unpack2 (PyStr.split "_" (PyStr.lower filt)) = Ok (d, f) ->
     d ∈ ["wfc3"; "acs"; "nircam"] ->
     is_Some (p' !! ((detector_class d f p).1 +:+ "_sharp")) /\
     is_Some (p' !! ((detector_class d f p).1 +:+ "_crowd"))).
Proof.
  split; [apply cull_loop_snrcut|]. split.
  - intros Hnone. unfold cull_fakestars, read_snrcut. by rewrite Hnone.
  - intros df' p' filt d f. apply cull_loop_fills.
Qed.

Lemma cull_fakestars_snrcut_stays_local_witness :
  let p' := outcome_params (cull_fakestars catalog_by_id ["WFC3_F814W"] ∅) in
  p' !! "snrcut" = None /\ is_Some (p' !! "uvis_sharp") /\ is_Some (p' !! "uvis_crowd").
Proof.
  destruct (cull_fakestars_snrcut_stays_local catalog_by_id ["WFC3_F814W"] ∅)
    as (Hsnr & _ & Hfill).
  split; [exact Hsnr|].
  apply (Hfill (outcome_frame (cull_fakestars catalog_by_id ["WFC3_F814W"] ∅)) _
           "WFC3_F814W" "wfc3" "f814w").
  - vm_compute. reflexivity.
  - apply list_elem_of_here.
  - reflexivity.
  - apply list_elem_of_here.
Defined.

(** ** The loop over the filters *)

Lemma cull_loop_frame snrcut filters : forall df p m,
  (forall filt, filt ∈ filters ->
     m <> PyStr.lower filt +:+ "_st" /\ m <> PyStr.lower filt +:+ "_gst") ->
  frame_get m (outcome_frame (cull_loop snrcut filters df p)) = frame_get m df /\
  nrows (outcome_frame (cull_loop snrcut filters df p)) = nrows df.
Proof.
  induction filters as [|filt rest IH]; simpl; intros df p m Hm; [done|].
  destruct (unpack2 _) as [[d f]|e]; [|done].
  destruct (detector_class d f p) as [d' p1].
  pose proof (cull_filter_nrows df (PyStr.lower filt) d' snrcut p1) as Hn.
  destruct (Hm filt) as [H1 H2]; [apply list_elem_of_here|].
  pose proof (cull_filter_other df (PyStr.lower filt) d' snrcut p1 m H1 H2) as Ho.
  destruct (cull_filter _ _ _ _ _) as [df1 [e0|]]; cbn [fst] in Hn, Ho; [done|].
  destruct (IH df1 p1 m) as [Hget Hrows].
  { intros filt' Hin. apply Hm. by apply list_elem_of_further. }
  by rewrite Hget, Hrows, Ho, Hn.
Qed.

Lemma cull_loop_app snrcut l1 l2 : forall df p,
  cull_loop snrcut (l1 ++ l2) df p =
  match cull_loop snrcut l1 df p with
  | Returned df1 p1 => cull_loop snrcut l2 df1 p1
  | Raised e df1 p1 => Raised e df1 p1
  end.
Proof.
  induction l1 as [|filt rest IH]; simpl; intros df p; [done|].
  destruct (unpack2 _) as [[d f]|e]; [|done].
  destruct (detector_class d f p) as [d' p1].
  destruct (cull_filter _ _ _ _ _) as [df1 [e0|]]; [done | apply IH].
Qed.

(** ** Fault isolation between filters *)

(** Closes a goal [a +:+ "_x" <> b +:+ "_y"]: the suffixes differ, or
    they agree and the names are known to differ. *)
Ltac label_neq :=
  let H := fresh "Hlabel" in
  intros H; label_eq H;
  repeat match goal with
  | E : rev (label_chars ?a) = rev (label_chars ?b) |- _ =>
      apply rev_label_inj in E
  end;
  congruence.

Lemma id_ok_unpacks filt :
  id_ok filt ->
  exists d f, unpack2 (PyStr.split "_" (PyStr.lower filt)) = Ok (d, f).
Proof. intros (d & f & ->). by exists d, f. Qed.

Lemma cull_filter_rows_eq df name d snrcut p :
  0 < nrows df ->
  cull_filter df name d snrcut p =
  (let v := flag_values (nrows df) (cut_conditions df name d snrcut p) in
   frame_set (name +:+ "_gst") v.2 (frame_set (name +:+ "_st") v.1 df), None).
Proof.
  intros Hrows. pose proof (cull_filter_rows df name d snrcut p Hrows) as Hnone.
  destruct (cull_filter df name d snrcut p) as [df' o] eqn:Hdone. simpl in Hnone. subst o.
  by rewrite (cull_filter_stores _ _ _ _ _ _ Hdone).
Qed.

Lemma cull_filter_rows_pair df name d snrcut p :
  0 < nrows df ->
  cull_filter df name d snrcut p = ((cull_filter df name d snrcut p).1, None).
Proof.
  intros Hrows. pose proof (cull_filter_rows df name d snrcut p Hrows) as Hnone.
  destruct (cull_filter df name d snrcut p) as [df' o]. simpl in *. by subst o.
Qed.

Lemma cull_filter_rows_st df name d snrcut p :
  0 < nrows df ->
  frame_get (name +:+ "_st") (cull_filter df name d snrcut p).1 =
  Some (flag_values (nrows df) (cut_conditions df name d snrcut p)).1.
Proof. intros Hrows. by apply cull_filter_st, cull_filter_rows_pair. Qed.

Lemma cull_filter_rows_gst df name d snrcut p :
  0 < nrows df ->
  frame_get (name +:+ "_gst") (cull_filter df name d snrcut p).1 =
  Some (flag_values (nrows df) (cut_conditions df name d snrcut p)).2.
Proof. intros Hrows. by apply cull_filter_gst, cull_filter_rows_pair. Qed.

(** The last iteration for a filter decides its two flag columns:
    when its flag computation fails, with the parameters that
    iteration finds, both columns hold the undefined marker at the
    end of the loop. *)
Lemma cull_loop_last_fails snrcut before X after : forall df p d f e df' p',
  0 < nrows df ->
  unpack2 (PyStr.split "_" (PyStr.lower X)) = Ok (d, f) ->
  PyStr.lower X ∉ PyStr.lower <$> after ->
  cut_conditions df (PyStr.lower X) (detector_class d f p).1 snrcut
    (outcome_params (cull_loop snrcut (before ++ [X]) df p)) = Raise e ->
  cull_loop snrcut (before ++ X :: after) df p = Returned df' p' ->
  frame_get (PyStr.lower X +:+ "_st") df' = Some (nan_column df) /\
  frame_get (PyStr.lower X +:+ "_gst") df' = Some (nan_column df).
Proof.
  intros df p d f e df' p' Hrows Hsplit Hlast Hbad Hrun.
  rewrite cons_middle, app_assoc, cull_loop_app in Hrun.
  destruct (cull_loop snrcut (before ++ [X]) df p) as [dfX pX|] eqn:HX; [|done].
  cbn [outcome_params] in Hbad.
  assert (Hafter : forall m, (forall n, m = n +:+ "_st" \/ m = n +:+ "_gst" ->
                                n = PyStr.lower X) ->
                   m = PyStr.lower X +:+ "_st" \/ m = PyStr.lower X +:+ "_gst" ->
                   frame_get m df' = frame_get m dfX).
  { intros m Hm _.
    destruct (cull_loop_frame snrcut after dfX pX m) as [Hget _]; [|by rewrite Hrun in Hget].
    intros filt Hin.
    split; intros E; apply Hlast; rewrite <- (Hm (PyStr.lower filt)) by auto;
      by apply list_elem_of_fmap_2. }
  rewrite !Hafter; [| |by right| |by left].
  2: { intros n [E|E]; [by label_eq E | by apply gst_label_inj in E]. }
  2: { intros n [E|E]; [by apply st_label_inj in E | symmetry in E; by label_eq E]. }
  clear Hafter Hrun Hlast df' p'.
  rewrite cull_loop_app in HX.
  pose proof (cull_loop_frame snrcut before df p) as Hframe.
  destruct (cull_loop snrcut before df p) as [dfA pA|] eqn:HA; [|done].
  cbn [outcome_frame] in Hframe. cbn [cull_loop] in HX. rewrite Hsplit in HX.
  pose proof (detector_class_name d f pA p) as Hname.
  destruct (detector_class d f pA) as [dx p1]. cbn [fst] in Hname. subst dx.
  assert (HrowsA : nrows dfA = nrows df).
  { apply (Hframe (PyStr.lower X +:+ "_snr")). intros filt _. split; label_neq. }
  rewrite cull_filter_rows_eq in HX by lia. injection HX as <- <-.
  rewrite (cut_conditions_reads dfA df), Hbad.
  2-4: apply Hframe; intros filt _; split; label_neq.
  cbn [flag_values fst snd]. unfold nan_column. rewrite HrowsA. split.
  - rewrite frame_get_set_ne, frame_get_set_eq; [done|].
    intros H. symmetry in H. by apply st_gst_label in H.
  - by rewrite frame_get_set_eq.
Qed.

Lemma input_labels_other x n :
  n <> x ->
  ((n +:+ "_snr") ∉ input_labels x) /\
  ((n +:+ "_sharp") ∉ input_labels x) /\
  ((n +:+ "_crowd") ∉ input_labels x).
Proof.
  intros Hne. unfold input_labels.
  repeat split; intros Hin;
    repeat (apply elem_of_cons in Hin as [Hin|Hin]);
    try (by apply elem_of_nil in Hin); revert Hin; label_neq.
Qed.

Lemma agree_off_cull_filter x df1 df2 name d snrcut p :
  0 < nrows df1 ->
  agree_off x df1 df2 ->
  agree_off x (cull_filter df1 name d snrcut p).1 (cull_filter df2 name d snrcut p).1.
Proof.
  intros Hpos [Hrows Hag]. split; [by rewrite !cull_filter_nrows|].
  intros m Hin Hst Hgst.
  destruct (decide (name = x)) as [->|Hne].
  - by rewrite !cull_filter_other; [apply Hag|..].
  - destruct (input_labels_other x name Hne) as (H1 & H2 & H3).
    assert (Hc : cut_conditions df1 name d snrcut p = cut_conditions df2 name d snrcut p).
    { apply cut_conditions_reads; apply Hag; try done; label_neq. }
    destruct (decide (m = name +:+ "_st")) as [->|Hm1].
    { rewrite (cull_filter_rows_st df1), (cull_filter_rows_st df2) by lia.
      by rewrite Hc, Hrows. }
    destruct (decide (m = name +:+ "_gst")) as [->|Hm2].
    { rewrite (cull_filter_rows_gst df1), (cull_filter_rows_gst df2) by lia.
      by rewrite Hc, Hrows. }
    by rewrite !cull_filter_other; [apply Hag|..].
Qed.

Lemma cull_loop_agree snrcut x filters : forall df1 df2 p,
  (forall filt, filt ∈ filters -> id_ok filt) ->
  0 < nrows df1 ->
  agree_off x df1 df2 ->
  exists df1' df2' p',
    cull_loop snrcut filters df1 p = Returned df1' p' /\
    cull_loop snrcut filters df2 p = Returned df2' p' /\
    agree_off x df1' df2'.
Proof.
  induction filters as [|filt rest IH]; simpl; intros df1 df2 p Hok Hpos Hag.
  - by exists df1, df2, p.
  - destruct (id_ok_unpacks filt) as (d & f & ->).
    { apply Hok, list_elem_of_here. }
    destruct (detector_class d f p) as [d' p1].
    pose proof (agree_off_cull_filter x df1 df2 (PyStr.lower filt) d' snrcut p1 Hpos Hag)
      as Hag1.
    pose proof (cull_filter_nrows df1 (PyStr.lower filt) d' snrcut p1) as Hrows1.
    pose proof (cull_filter_rows df1 (PyStr.lower filt) d' snrcut p1 Hpos) as Hnone1.
    assert (Hpos2 : 0 < nrows df2) by (destruct Hag as [<- _]; lia).
    pose proof (cull_filter_rows df2 (PyStr.lower filt) d' snrcut p1 Hpos2) as Hnone2.
    destruct (cull_filter df1 _ _ _ _) as [df1a o1].
    destruct (cull_filter df2 _ _ _ _) as [df2a o2].
    cbn [fst snd] in *. subst o1 o2.
    apply IH; [|lia|done].
    intros filt' Hin. apply Hok. by apply list_elem_of_further.
Qed.

(** C2, as stated: an identifier that does not split into two tokens
    makes the call raise, since the split stands before the [try];
    here with the identifier in the format the docstring gives.  And
    on a catalog without rows the handler itself raises. *)
Lemma cull_fakestars_raises_on_identifier :
  let df := Frame 1 [("wfc3_f814w_snr", CFloat [5.0%float])] in
  cull_fakestars df ["WFC-F814W"] ∅ = Raised ValueError df ∅ /\
  filter_conditions catalog_no_rows "WFC3_F814W" (PFloat 4.0)
    (outcome_params (cull_fakestars catalog_no_rows ["WFC3_F814W"] ∅)) = Raise KeyError /\
  exists p', cull_fakestars catalog_no_rows ["WFC3_F814W"] ∅ =
             Raised ValueError catalog_no_rows p'.
Proof.
  split; [vm_compute; reflexivity|]. split; [vm_compute; reflexivity|].
  eexists. vm_compute. reflexivity.
Qed.

(** C2, amended: on a catalog with at least one row, when every
    identifier of the list splits at its one underscore into detector
    and filter, the call returns also if the flag computation of a
    filter X fails at the last iteration for X, whatever the cause (an
    input column missing or not comparable with its cut, a cut of the
    class of X missing or not comparable): both flag columns of X hold
    the undefined marker NaN, and the flag columns of every other
    filter of the list are those of a run on any catalog that differs
    in the three input columns of X only.  The parameters the last
    iteration for X finds are those a call on the list up to that X
    leaves. *)
Theorem cull_fakestars_isolates_failure df df2 before X after p e :
  (forall filt, filt ∈ before ++ X :: after -> id_ok filt) ->
  0 < nrows df ->
  PyStr.lower X ∉ PyStr.lower <$> after ->
  filter_conditions df X (read_snrcut p)
    (outcome_params (cull_fakestars df (before ++ [X]) p)) = Raise e ->
  nrows df2 = nrows df ->
  (forall m, m ∉ input_labels (PyStr.lower X) -> frame_get m df2 = frame_get m df) ->
  exists df' df2' p',
    cull_fakestars df (before ++ X :: after) p = Returned df' p' /\
    cull_fakestars df2 (before ++ X :: after) p = Returned df2' p' /\
    frame_get (PyStr.lower X +:+ "_st") df' = Some (nan_column df) /\
    frame_get (PyStr.lower X +:+ "_gst") df' = Some (nan_column df) /\
    forall Y, Y ∈ before ++ X :: after -> PyStr.lower Y <> PyStr.lower X ->
      frame_get (PyStr.lower Y +:+ "_st") df' = frame_get (PyStr.lower Y +:+ "_st") df2' /\
      frame_get (PyStr.lower Y +:+ "_gst") df' = frame_get (PyStr.lower Y +:+ "_gst") df2'.
Proof.
  intros Hok Hpos Hlast Hbad Hrows Hsame.
  destruct (cull_loop_agree (read_snrcut p) (PyStr.lower X) (before ++ X :: after) df df2 p
              Hok Hpos) as (df' & df2' & p' & Hrun & Hrun2 & _ & Hag).
  { split; [done|]. intros m Hm _ _. symmetry. by apply Hsame. }
  exists df', df2', p'. unfold cull_fakestars in *.
  split; [exact Hrun|]. split; [exact Hrun2|].
  unfold filter_conditions in Hbad.
  destruct (id_ok_unpacks X) as (d & f & Hsplit).
  { apply Hok, elem_of_app. right. apply list_elem_of_here. }
  rewrite Hsplit in Hbad. cbn [pybind fst snd] in Hbad.
  rewrite (detector_class_name d f _ p) in Hbad.
  destruct (cull_loop_last_fails (read_snrcut p) before X after df p d f e df' p'
              Hpos Hsplit Hlast Hbad Hrun) as [Hst Hgst].
  split; [exact Hst|]. split; [exact Hgst|].
  intros Y HY Hne.
  split; apply Hag;
    try (unfold input_labels; intros Hin;
         repeat (apply elem_of_cons in Hin as [Hin|Hin]);
         try (by apply elem_of_nil in Hin); revert Hin);
    label_neq.
Qed.

Lemma cull_fakestars_isolates_failure_witness :
  exists df' df2' p',
    cull_fakestars catalog_missing ["WFC3_F814W"; "ACS_F475W"] ∅ = Returned df' p' /\
    cull_fakestars catalog_repaired ["WFC3_F814W"; "ACS_F475W"] ∅ = Returned df2' p' /\
    frame_get "wfc3_f814w_st" df' = Some (CFloat [nan; nan]) /\
    frame_get "wfc3_f814w_gst" df' = Some (CFloat [nan; nan]) /\
    forall Y, Y ∈ ["WFC3_F814W"; "ACS_F475W"] -> PyStr.lower Y <> "wfc3_f814w" ->
      frame_get (PyStr.lower Y +:+ "_st") df' = frame_get (PyStr.lower Y +:+ "_st") df2' /\
      frame_get (PyStr.lower Y +:+ "_gst") df' = frame_get (PyStr.lower Y +:+ "_gst") df2'.
Proof.
  apply (cull_fakestars_isolates_failure catalog_missing catalog_repaired
           [] "WFC3_F814W" ["ACS_F475W"] ∅ KeyError).
  - intros filt Hin.
    apply elem_of_cons in Hin as [->|Hin]; [by exists "wfc3", "f814w"|].
    apply elem_of_cons in Hin as [->|Hin]; [by exists "acs", "f475w"|].
    by apply elem_of_nil in Hin.
  - simpl. lia.
  - intros Hin. apply elem_of_cons in Hin as [Hin|Hin]; [done|]. by apply elem_of_nil in Hin.
  - vm_compute. reflexivity.
  - reflexivity.
  - intros m Hm. unfold catalog_repaired.
    rewrite !frame_get_set_ne; [reflexivity | |];
      intros <-; apply Hm; unfold input_labels; simpl.
    + apply list_elem_of_further, list_elem_of_here.
    + apply list_elem_of_further, list_elem_of_further, list_elem_of_here.
Defined.

(** ** Coordinates *)

Lemma frame_insert_stores loc name vals df :
  name ∉ labels df -> length vals = nrows df -> loc <= length (cols df) ->
  frame_insert loc name vals df =
  Ok (Frame (nrows df) (take loc (cols df) ++ (name, CFloat vals) :: drop loc (cols df))).
Proof.
  intros Hnew Hlen Hloc. unfold frame_insert.
  rewrite bool_decide_eq_false_2 by done.
  rewrite Hlen, Nat.eqb_refl. simpl.
  by rewrite (proj2 (Nat.ltb_ge _ _) Hloc).
Qed.

Lemma labels_inserted loc (name : string) (c : column) (l : list (string * column)) x :
  x ∈ (take loc l ++ (name, c) :: drop loc l).*1 -> x = name \/ x ∈ l.*1.
Proof.
  rewrite fmap_app, fmap_cons, fmap_take, fmap_drop. simpl.
  rewrite elem_of_app, elem_of_cons.
  rewrite <- (take_drop loc (l.*1)) at 3. rewrite elem_of_app. tauto.
Qed.

(** C7. With no reference image [add_wcs] returns the catalog as it
    is and reports the skip.  With exactly one, for a catalog that has
    columns [x] and [y], at least four columns and none called [ra] or
    [dec], and a projection that yields one coordinate pair per row,
    the columns [ra] and [dec] are put at positions 4 and 5 and the
    other columns keep their order and content. *)
Theorem add_wcs_zero_or_one all_pix2world df photfile :
  add_wcs all_pix2world df photfile [] = ([NoDrizzled], Ok df) /\
  forall drzfile x y ra dec,
    frame_get "x" df = Some x ->
    frame_get "y" df = Some y ->
    all_pix2world drzfile x y = Ok (ra, dec) ->
    length ra = nrows df -> length dec = nrows df ->
    4 <= length (cols df) ->
    "ra" ∉ labels df -> "dec" ∉ labels df ->
    add_wcs all_pix2world df photfile [drzfile] =
    ([UsingReference drzfile],
     Ok (Frame (nrows df)
           (take 4 (cols df) ++
            [("ra", CFloat ra); ("dec", CFloat dec)] ++ drop 4 (cols df)))).
Proof.
  split; [reflexivity|].
  intros drzfile x y ra dec Hx Hy Hwcs Hra Hdec Hcols Hnra Hndec.
  unfold add_wcs, attr_col. simpl. rewrite Hx, Hy. simpl. rewrite Hwcs. simpl.
  rewrite frame_insert_stores by done. simpl.
  rewrite frame_insert_stores; simpl.
  - do 2 f_equal. f_equal.
    assert (Hlen : length (take 4 (cols df)) = 4) by (by apply length_take_le).
    rewrite (cons_middle ("ra", CFloat ra)), app_assoc.
    rewrite take_app_length', drop_app_length'; rewrite ?length_app, ?Hlen; simpl; try lia.
    by rewrite <- app_assoc.
  - unfold labels. simpl. intros Hin.
    apply labels_inserted in Hin as [?|?]; [done | by apply Hndec].
  - done.
  - rewrite length_app, length_take_le by done. simpl. lia.
Qed.

Lemma add_wcs_zero_or_one_witness :
  add_wcs pix2world_identity catalog_xy "field.phot" ["ref_drz.chip1.fits"] =
  ([UsingReference "ref_drz.chip1.fits"],
   Ok (Frame 2 [("ext_in", CFloat [0.0; 0.0]%float);
                ("chip_in", CFloat [1.0; 1.0]%float);
                ("x_in", CFloat [10.0; 20.0]%float);
                ("y_in", CFloat [30.0; 40.0]%float);
                ("ra", CFloat [10.5; 20.5]%float);
                ("dec", CFloat [30.5; 40.5]%float);
                ("x", CFloat [10.5; 20.5]%float);
                ("y", CFloat [30.5; 40.5]%float)])).
Proof.
  destruct (add_wcs_zero_or_one pix2world_identity catalog_xy "field.phot") as [_ H].
  apply (H "ref_drz.chip1.fits" (CFloat [10.5; 20.5]%float) (CFloat [30.5; 40.5]%float)
           [10.5; 20.5]%float [30.5; 40.5]%float);
    try reflexivity; try (simpl; lia);
    unfold labels; simpl; intros Hin;
    repeat (apply elem_of_cons in Hin as [Hin|Hin]; [discriminate|]);
    by apply elem_of_nil in Hin.
Defined.

(** C8, as stated: with two reference images nothing is selected; the
    catalog comes back without [ra] and [dec]. *)
Lemma add_wcs_two_references_attach_nothing :
  add_wcs pix2world_identity catalog_xy "field.phot" ["a_drz.chip1.fits"; "b_drz.chip1.fits"] =
  ([MultipleDrizzled ["a_drz.chip1.fits"; "b_drz.chip1.fits"]], Ok catalog_xy) /\
  frame_get "ra" catalog_xy = None /\ frame_get "dec" catalog_xy = None.
Proof. done. Qed.

(** C8, amended: with more than one reference image [add_wcs] reports
    the ambiguity, naming the references found, and returns the catalog
    unchanged; no reference is selected and no coordinates are
    attached. *)
Theorem add_wcs_ambiguous_references all_pix2world df photfile drzfiles :
  1 < length drzfiles ->
  add_wcs all_pix2world df photfile drzfiles = ([MultipleDrizzled drzfiles], Ok df).
Proof.
  intros Hlen. unfold add_wcs.
  destruct drzfiles as [|a [|b rest]]; simpl in *; try lia. reflexivity.
Qed.

Lemma add_wcs_ambiguous_references_witness :
  add_wcs pix2world_identity catalog_xy "field.phot" ["a_drz.chip1.fits"; "b_drz.chip1.fits"] =
  ([MultipleDrizzled ["a_drz.chip1.fits"; "b_drz.chip1.fits"]], Ok catalog_xy).
Proof.
  apply (add_wcs_ambiguous_references pix2world_identity catalog_xy "field.phot"
           ["a_drz.chip1.fits"; "b_drz.chip1.fits"]).
  simpl. lia.
Defined.

(** ** Schema resolution *)

Lemma zip_with_keeps_desc (rows : list schema_row) (vals : list string) :
  length rows <= length vals ->
  (zip_with (fun row v => (row.1, v)) rows vals).*1 = rows.*1.
Proof.
  revert vals. induction rows as [|row rows IH]; intros [|v vals] Hlen; simpl in *;
    try done; try lia.
  f_equal. apply IH. lia.
Qed.

Lemma loc_assign_descs a b vals df df' :
  loc_assign a b vals df = Ok df' -> df'.*1 = df.*1.
Proof.
  unfold loc_assign.
  generalize (Nat.min (S b) (length df) - a)%nat. intros selected.
  destruct (selected =? length vals)%nat eqn:Hsel; [|done]. apply Nat.eqb_eq in Hsel.
  intros [= <-]. rewrite !fmap_app, zip_with_keeps_desc.
  - rewrite <- !fmap_app. f_equal.
    rewrite <- drop_drop, take_drop. apply take_drop.
  - rewrite length_take. lia.
Qed.

Lemma two_fields_rows (rows : list (list string)) (table : list (string * string)) :
  Forall2 (fun row pair => match row with
                           | [a; b] => Some (a, b)
                           | _ => None
                           end = Some pair) rows table ->
  rows = (fun row => [row.1; row.2]) <$> table.
Proof.
  induction 1 as [|row pair rows table Hrow _ IH]; [done|].
  destruct row as [|a [|b [|c row]]]; try done. injection Hrow as <-.
  rewrite fmap_cons. by f_equal.
Qed.

(** Lines 262-265 are passed only by files of two lines or more, of
    two fields each. *)
Lemma two_column_frame_ok rows table :
  two_column_frame rows = Ok table ->
  2 <= length rows /\ length table = length rows /\
  rows = (fun row => [row.1; row.2]) <$> table.
Proof.
  unfold two_column_frame. destruct rows as [|r1 [|r2 rows]]; [done..|].
  destruct (mapM _ _) as [table'|] eqn:Hrows; [|done]. intros [= <-].
  split; [simpl; lia|]. apply mapM_Some in Hrows. split.
  - symmetry. by eapply Forall2_length.
  - by apply two_fields_rows.
Qed.

Lemma read_table_ok loadtxt file sep table :
  read_table loadtxt file sep = Ok table ->
  exists rows, loadtxt file sep = Ok rows /\ 2 <= length rows /\ length table = length rows.
Proof.
  unfold read_table. destruct (loadtxt file sep) as [rows|]; cbn [pybind]; [|done].
  intros (H2 & Hlen & _)%two_column_frame_ok. by exists rows.
Qed.

Lemma name_columns_tables loadtxt select_product unique_ragged g colfile infofile filts
    infodf coldf :
  read_table loadtxt infofile " " = Ok infodf ->
  read_table loadtxt colfile ". " = Ok coldf ->
  name_columns loadtxt select_product unique_ragged g colfile infofile filts =
  assign_colnames select_product unique_ragged g infodf (coldf.*2) filts.
Proof.
  intros H1 H2. unfold name_columns. rewrite H1. cbn [pybind]. by rewrite H2.
Qed.

Lemma name_columns_inv loadtxt select_product unique_ragged g colfile infofile filts r :
  name_columns loadtxt select_product unique_ragged g colfile infofile filts = Ok r ->
  exists infodf coldf,
    read_table loadtxt infofile " " = Ok infodf /\
    read_table loadtxt colfile ". " = Ok coldf /\
    assign_colnames select_product unique_ragged g infodf (coldf.*2) filts = Ok r.
Proof.
  unfold name_columns. intros H.
  destruct (read_table loadtxt infofile " ") as [infodf|] eqn:H1; cbn [pybind] in H; [|done].
  destruct (read_table loadtxt colfile ". ") as [coldf|] eqn:H2; cbn [pybind] in H; [|done].
  by exists infodf, coldf.
Qed.

(** ** The naming rule of lines 285-297 *)

(** The loop treats every row by itself. *)
Lemma mapping_loop_lookup mappings : forall df filters_all (i : nat) row,
  df !! i = Some row ->
  (mapping_loop mappings df filters_all).1 !! i =
  Some (foldl (fun r kv => (map_row kv.1 kv.2 r).1) row mappings).
Proof.
  induction mappings as [|[k v] rest IH]; simpl; intros df filters_all i row Hi; [done|].
  apply IH. by rewrite !list_lookup_fmap, Hi.
Qed.

Lemma mapping_loop_prefix mappings : forall df filters_all,
  exists more, (mapping_loop mappings df filters_all).2 = filters_all ++ more.
Proof.
  induction mappings as [|[k v] rest IH]; simpl; intros df filters_all.
  - exists []. by rewrite app_nil_r.
  - destruct (IH ((map_row k v <$> df).*1) (filters_all ++ [omap snd (map_row k v <$> df)]))
      as [more ->].
    eexists. by rewrite <- app_assoc.
Qed.

(** A filter token found in a row is in the array of the fragment
    that found it. *)
Lemma mapping_loop_collects before k v after : forall df filters_all (i : nat) row filt,
  df !! i = Some row ->
  (map_row k v (foldl (fun r kv => (map_row kv.1 kv.2 r).1) row before)).2 = Some filt ->
  exists filters,
    (mapping_loop (before ++ (k, v) :: after) df filters_all).2
      !! (length filters_all + length before)%nat = Some filters /\
    filt ∈ filters.
Proof.
  induction before as [|[k0 v0] before IH]; simpl; intros df filters_all i row filt Hi Hfilt.
  - destruct (mapping_loop_prefix after ((map_row k v <$> df).*1)
                (filters_all ++ [omap snd (map_row k v <$> df)])) as [more ->].
    exists (omap snd (map_row k v <$> df)). split.
    + rewrite Nat.add_0_r, <- app_assoc.
      by rewrite lookup_app_r, Nat.sub_diag by lia.
    + apply list_elem_of_omap. exists (map_row k v row). split; [|done].
      apply list_elem_of_fmap_2. by eapply list_elem_of_lookup_2.
  - destruct (IH ((map_row k0 v0 <$> df).*1)
                (filters_all ++ [omap snd (map_row k0 v0 <$> df)]) i
                (map_row k0 v0 row).1 filt) as (filters & Hget & Hin); [|done|].
    { by rewrite !list_lookup_fmap, Hi. }
    exists filters. split; [|done].
    rewrite length_app in Hget. simpl in Hget.
    by replace (length filters_all + S (length before))%nat
      with (length filters_all + 1 + length before)%nat by lia.
Qed.

(** C3, as stated: on the two files of Scenario A [name_columns]
    raises ValueError, for the manifest of one line does not make a
    table of two columns (lines 262-263); and the assignments of lines
    268, 280 and 283 with the naming rule of lines 285-297, applied to
    the descriptions of the scenario, name the last column
    [filter f814w_snr], not [f814w_snr]. *)
Lemma scenario_a_as_stated :
  name_columns (loadtxt_from scenario_a_dir) select_wfc3 unique_refused
    (script_globals "field.phot") "field.phot.columns" "field.phot.info" ["WFC3_F814W"] =
  Raise ValueError /\
  (mapping_loop colname_mappings
     (zip scenario_a_descs (scenario_a_head_names ++ [""])) []).1.*2 = scenario_a_resolved /\
  scenario_a_resolved <> scenario_a_claimed.
Proof. vm_compute. done. Qed.

Lemma scenario_a_line_268 :
  loc_assign 0 3 fakepos_columns ((fun d => (d, "")) <$> scenario_a_descs) =
  Ok scenario_a_positions.
Proof. vm_compute. reflexivity. Qed.

Lemma scenario_a_line_280 :
  loc_assign 4 (4 + 1) ["img1.chip1" +:+ "_counts"; "img1.chip1" +:+ "_mag"]
    scenario_a_positions =
  Ok scenario_a_images.
Proof. vm_compute. reflexivity. Qed.

Lemma scenario_a_line_283 :
  loc_assign (4 + 2) (4 + 2 + 10) global_columns scenario_a_images =
  Ok (zip scenario_a_descs (scenario_a_head_names ++ [""])).
Proof. vm_compute. reflexivity. Qed.

Lemma scenario_a_mapping :
  mapping_loop colname_mappings
    (zip scenario_a_descs (scenario_a_head_names ++ [""])) [] =
  (zip scenario_a_descs scenario_a_resolved, scenario_a_filters_all).
Proof. vm_compute. reflexivity. Qed.

(** C3, amended: the naming rule gives a column described
    [Signal-to-noise, filter 'F814W'] the name [filter f814w_snr] and
    collects the token [filter F814W] in the array of its fragment,
    in every table and at every index; and the assignments of lines
    268, 280 (for the image [img1.chip1]) and 283 followed by the
    rule, applied to the descriptions of Scenario A, give the
    seventeen names of the scenario and that name. *)
Theorem scenario_a_resolution (df : list schema_row) (i : nat) (name : string) :
  df !! i = Some ("Signal-to-noise, filter 'F814W'", name) ->
  ((mapping_loop colname_mappings df []).1 !! i =
     Some ("Signal-to-noise, filter 'F814W'", "filter f814w_snr") /\
   exists filters,
     (mapping_loop colname_mappings df []).2 !! 8%nat = Some filters /\
     "filter F814W" ∈ filters) /\
  (df1 <- loc_assign 0 3 fakepos_columns ((fun d => (d, "")) <$> scenario_a_descs) ;;
   df2 <- loc_assign 4 (4 + 1) ["img1.chip1" +:+ "_counts"; "img1.chip1" +:+ "_mag"] df1 ;;
   df3 <- loc_assign (4 + 2) (4 + 2 + 10) global_columns df2 ;;
   Ok (mapping_loop colname_mappings df3 [])) =
  Ok (zip scenario_a_descs scenario_a_resolved, scenario_a_filters_all).
Proof.
  intros Hi. split; [split|].
  - rewrite (mapping_loop_lookup _ _ _ _ _ Hi). vm_compute. reflexivity.
  - change colname_mappings
      with (take 8 colname_mappings ++ ("Signal-to-noise,", "snr") :: drop 9 colname_mappings).
    apply (mapping_loop_collects (take 8 colname_mappings) "Signal-to-noise," "snr"
             (drop 9 colname_mappings) df [] i _ "filter F814W" Hi).
    vm_compute. reflexivity.
  - rewrite scenario_a_line_268. cbn [pybind].
    rewrite scenario_a_line_280. cbn [pybind].
    rewrite scenario_a_line_283. cbn [pybind].
    by rewrite scenario_a_mapping.
Qed.

Lemma scenario_a_resolution_witness :
  (zip scenario_a_descs scenario_a_resolved) !! 17%nat =
    Some ("Signal-to-noise, filter 'F814W'", "filter f814w_snr") /\
  exists filters,
    scenario_a_filters_all !! 8%nat = Some filters /\ "filter F814W" ∈ filters.
Proof.
  destruct (scenario_a_resolution (zip scenario_a_descs (scenario_a_head_names ++ [""]))
              17 "" eq_refl) as [Hrow _].
  rewrite scenario_a_mapping in Hrow. exact Hrow.
Defined.

(** ** The persisted store *)

(** C6, at a run: the section [data] holds every column of the
    catalog, the two columns of the image and the single-exposure
    column among them, followed by the two flags. *)
Theorem data_section_keeps_image_columns :
  example_run = Finished PyNone (run_world example_run) /\
  section_labels "field.phot_full.hdf5" "data" (run_world example_run) =
  Some (example_columns.*2 ++ ["wfc3_f814w_st"; "wfc3_f814w_gst"]) /\
  "img1.chip1_counts" ∈ example_columns.*2 /\
  "img1.chip1_mag" ∈ example_columns.*2 /\
  "img1.chip1_snr" ∈ example_columns.*2.
Proof.
  split; [vm_compute; reflexivity|]. split; [vm_compute; reflexivity|].
  repeat split; apply list_elem_of_In; vm_compute; tauto.
Qed.

(** C10. Whatever its arguments and its environment, a call of
    [read_fakestars] that returns hands its caller [None]. *)
Theorem read_fakestars_returns_none
    all_pix2world re_compile header_table drzfiles files g w fakefile columns_df filters
    v w' :
  read_fakestars all_pix2world re_compile header_table drzfiles files
    g w fakefile columns_df filters = Finished v w' ->
  v = PyNone.
Proof.
  unfold read_fakestars. intros Hrun.
  repeat (case_match; try discriminate).
  by injection Hrun as <- _.
Qed.

Lemma read_fakestars_returns_none_witness :
  exists v w', example_run = Finished v w' /\ v = PyNone.
Proof.
  exists PyNone, (run_world example_run).
  split; [vm_compute; reflexivity|].
  apply (read_fakestars_returns_none pix2world_identity re_compile_plain example_header []
           example_files (script_globals "field.phot") (World ∅ ∅) "field.phot.fake"
           example_columns ["WFC3_F814W"] PyNone (run_world example_run)).
  vm_compute. reflexivity.
Defined.

(** * Further properties *)

Import (notations) Stdlib.Strings.Ascii.

(** Closes a goal [x ∈ l] for an element written out in [l]. *)
Ltac in_list := repeat first [apply list_elem_of_here | apply list_elem_of_further].

(** ** The classifier: what it keeps *)

(** X1. Whether it returns or raises, [cull_fakestars] leaves the
    number of rows and every column other than the [_st] and [_gst]
    columns of the listed filters as it found them. *)
Theorem cull_fakestars_keeps_columns df filter_detectors p m :
  (forall filt, filt ∈ filter_detectors ->
     m <> PyStr.lower filt +:+ "_st" /\ m <> PyStr.lower filt +:+ "_gst") ->
  frame_get m (outcome_frame (cull_fakestars df filter_detectors p)) = frame_get m df /\
  nrows (outcome_frame (cull_fakestars df filter_detectors p)) = nrows df.
Proof. apply cull_loop_frame. Qed.

Lemma cull_fakestars_keeps_columns_witness :
  frame_get "acs_f475w_sharp"
    (outcome_frame (cull_fakestars catalog_missing ["WFC3_F814W"; "ACS_F475W"] ∅)) =
  Some (CFloat [0.1; 0.9]%float) /\
  nrows (outcome_frame (cull_fakestars catalog_missing ["WFC3_F814W"; "ACS_F475W"] ∅)) = 2.
Proof.
  apply (cull_fakestars_keeps_columns catalog_missing ["WFC3_F814W"; "ACS_F475W"] ∅
           "acs_f475w_sharp").
  intros filt Hin.
  apply elem_of_cons in Hin as [->|Hin]; [done|].
  apply elem_of_cons in Hin as [->|Hin]; [done|].
  by apply elem_of_nil in Hin.
Defined.

(** ** The classifier: what it stores *)

Lemma gained_defaults_refl p : gained_defaults p p.
Proof. intros k. by left. Qed.

Lemma gained_defaults_fill p p' key dflt :
  (key, dflt) ∈ default_cuts ->
  gained_defaults p p' -> gained_defaults p (fill_default key dflt p').
Proof.
  intros Hkey Hp k. destruct (decide (key = k)) as [->|Hne].
  - unfold fill_default. destruct (p' !! k) as [v|] eqn:E.
    + rewrite E. destruct (Hp k) as [H|(H & v' & Hv' & H')]; [left; congruence|].
      right. split; [done|]. exists v'. split; [done | congruence].
    + rewrite lookup_insert_eq. destruct (Hp k) as [H|(H & v' & Hv' & H')]; [|congruence].
      right. split; [congruence|]. by exists dflt.
  - rewrite fill_default_other by done. apply Hp.
Qed.

Lemma gained_defaults_class p p' d f :
  gained_defaults p p' -> gained_defaults p (detector_class d f p').2.
Proof.
  intros Hp. unfold detector_class.
  repeat (case_match; simplify_eq); simpl;
    repeat (apply gained_defaults_fill; [unfold default_cuts; in_list|]); done.
Qed.

Lemma cull_loop_gained snrcut filters : forall df p0 p,
  gained_defaults p0 p ->
  gained_defaults p0 (outcome_params (cull_loop snrcut filters df p)).
Proof.
  induction filters as [|filt rest IH]; simpl; intros df p0 p Hp; [done|].
  destruct (unpack2 _) as [[d f]|e]; [|done].
  pose proof (gained_defaults_class p0 p d f Hp) as Hc.
  destruct (detector_class d f p) as [d' p1].
  destruct (cull_filter _ _ _ _ _) as [df1 [e0|]]; [exact Hc | by apply IH].
Qed.

(** X2. Whether it returns or raises, [cull_fakestars] changes the
    parameter object at most by storing, under a key that was absent,
    the default of that key: one of the eight cut defaults.  A value
    that was present is never replaced, and no key is removed. *)
Theorem cull_fakestars_stores_defaults_only df filter_detectors p k :
  let p' := outcome_params (cull_fakestars df filter_detectors p) in
  p' !! k = p !! k \/
  (p !! k = None /\ exists v, (k, v) ∈ default_cuts /\ p' !! k = Some (PFloat v)).
Proof. apply cull_loop_gained, gained_defaults_refl. Qed.

(** ** The classifier: one call or two *)

Lemma read_snrcut_after snrcut filters df p :
  read_snrcut (outcome_params (cull_loop snrcut filters df p)) = read_snrcut p.
Proof. unfold read_snrcut. by rewrite cull_loop_snrcut. Qed.

(** X3. Classifying a filter list in one call is classifying its
    first part and then, on the frame and parameters that call leaves,
    the rest; an exception in the first part is the exception of the
    whole, with the same frame and parameters. *)
Theorem cull_fakestars_app df l1 l2 p :
  cull_fakestars df (l1 ++ l2) p =
  match cull_fakestars df l1 p with
  | Returned df1 p1 => cull_fakestars df1 l2 p1
  | Raised e df1 p1 => Raised e df1 p1
  end.
Proof.
  unfold cull_fakestars. rewrite cull_loop_app.
  pose proof (read_snrcut_after (read_snrcut p) l1 df p) as Hcut.
  destruct (cull_loop (read_snrcut p) l1 df p) as [df1 p1|e df1 p1]; simpl in Hcut; [|done].
  by rewrite Hcut.
Qed.

(** ** The classifier: when it raises *)

Lemma lower_ascii_underscore c :
  Ascii.eqb (PyStr.lower_ascii c) "_"%char = Ascii.eqb c "_"%char.
Proof. destruct c as [[] [] [] [] [] [] [] []]; reflexivity. Qed.

Lemma count_underscore_lower s :
  count_char "_"%char (PyStr.lower s) = count_char "_"%char s.
Proof.
  induction s as [|c s IH]; simpl; [done|].
  by rewrite lower_ascii_underscore, IH.
Qed.

Lemma prefix_char a c s :
  String.prefix (String a EmptyString) (String c s) = Ascii.eqb c a.
Proof.
  cbn [String.prefix]. destruct (Ascii.ascii_dec a c) as [<-|Hne].
  - rewrite Ascii.eqb_refl. by destruct s.
  - symmetry. apply Ascii.eqb_neq. congruence.
Qed.

Lemma split_go_char a c s :
  PyStr.split_go (String a EmptyString) 0 (String c s) =
  if Ascii.eqb c a
  then EmptyString :: PyStr.split_go (String a EmptyString) 0 s
  else match PyStr.split_go (String a EmptyString) 0 s with
       | p :: ps => String c p :: ps
       | [] => [String c EmptyString]
       end.
Proof. cbn [PyStr.split_go]. by rewrite prefix_char. Qed.

Lemma split_char_length a s :
  length (PyStr.split (String a EmptyString) s) = S (count_char a s).
Proof.
  unfold PyStr.split. induction s as [|c s IH]; [done|].
  rewrite split_go_char. cbn [count_char].
  destruct (Ascii.eqb c a); cbn [length]; [by rewrite IH|].
  destruct (PyStr.split_go _ 0 s); simpl in *; [lia | done].
Qed.

Lemma split_underscore_length s :
  length (PyStr.split "_" s) = S (count_char "_"%char s).
Proof. apply split_char_length. Qed.

Lemma unpack2_ok parts :
  (exists d f, unpack2 parts = Ok (d, f)) <-> length parts = 2.
Proof.
  split.
  - intros (d & f & H). by destruct parts as [|? [|? [|]]].
  - intros H. destruct parts as [|d [|f [|]]]; simpl in H; try lia. by exists d, f.
Qed.

Lemma identifier_unpacks filt :
  (exists d f, unpack2 (PyStr.split "_" (PyStr.lower filt)) = Ok (d, f)) <->
  count_char "_"%char filt = 1.
Proof.
  rewrite unpack2_ok, split_underscore_length, count_underscore_lower. lia.
Qed.

Lemma cull_loop_returned_ids snrcut filters : forall df p df' p',
  cull_loop snrcut filters df p = Returned df' p' ->
  forall filt, filt ∈ filters -> count_char "_"%char filt = 1.
Proof.
  induction filters as [|filt rest IH]; simpl; intros df p df' p' Hrun filt' Hin.
  - by apply elem_of_nil in Hin.
  - destruct (unpack2 _) as [[d f]|e] eqn:Hsplit; [|done].
    destruct (detector_class d f p) as [d' p1].
    destruct (cull_filter _ _ _ _ _) as [df1 [e0|]]; [done|].
    apply elem_of_cons in Hin as [->|Hin]; [|by eapply IH].
    apply identifier_unpacks. by exists d, f.
Qed.

Lemma cull_loop_returns_rows snrcut filters : forall df p,
  0 < nrows df ->
  (forall filt, filt ∈ filters -> count_char "_"%char filt = 1) ->
  exists df' p', cull_loop snrcut filters df p = Returned df' p'.
Proof.
  induction filters as [|filt rest IH]; simpl; intros df p Hrows Hall.
  - by exists df, p.
  - destruct (proj2 (identifier_unpacks filt)) as (d & f & ->).
    { apply Hall, list_elem_of_here. }
    destruct (detector_class d f p) as [d' p1].
    rewrite (cull_filter_rows_pair df (PyStr.lower filt) d' snrcut p1 Hrows).
    apply IH.
    + by rewrite cull_filter_nrows.
    + intros filt' Hin. apply Hall. by apply list_elem_of_further.
Qed.

(** X4. On a catalog with at least one row, [cull_fakestars] returns
    exactly when every identifier of the list contains one underscore
    and no more; in every other case it raises, whatever the columns
    and the parameters hold. *)
Theorem cull_fakestars_returns_iff df filter_detectors p :
  0 < nrows df ->
  (exists df' p', cull_fakestars df filter_detectors p = Returned df' p') <->
  (forall filt, filt ∈ filter_detectors -> count_char "_"%char filt = 1).
Proof.
  intros Hrows. split.
  - intros (df' & p' & Hrun). by eapply cull_loop_returned_ids.
  - by apply cull_loop_returns_rows.
Qed.

Lemma cull_fakestars_returns_iff_witness :
  (exists df' p', cull_fakestars catalog_by_id ["WFC3_F814W"; "F814W"] ∅ = Returned df' p') <->
  (forall filt, filt ∈ ["WFC3_F814W"; "F814W"] -> count_char "_"%char filt = 1).
Proof.
  apply (cull_fakestars_returns_iff catalog_by_id ["WFC3_F814W"; "F814W"] ∅).
  simpl. lia.
Defined.

(** X20. On a catalog without rows the handler of lines 168-171
    cannot store its marker: when the flag computation of the first
    filter fails and the catalog has no column for its [_st] flag yet,
    [cull_fakestars] raises ValueError from line 169, whatever follows
    in the list, and leaves the catalog as it was. *)
Theorem cull_fakestars_no_rows df filt rest p d f e :
  nrows df = 0 ->
  unpack2 (PyStr.split "_" (PyStr.lower filt)) = Ok (d, f) ->
  cut_conditions df (PyStr.lower filt) (detector_class d f p).1 (read_snrcut p)
    (detector_class d f p).2 = Raise e ->
  (PyStr.lower filt +:+ "_st") ∉ labels df ->
  cull_fakestars df (filt :: rest) p = Raised ValueError df (detector_class d f p).2.
Proof.
  intros Hrows Hsplit Hbad Hnew. unfold cull_fakestars. cbn [cull_loop]. rewrite Hsplit.
  destruct (detector_class d f p) as [d' p1]. cbn [fst snd] in Hbad.
  unfold cull_filter. rewrite Hbad. unfold loc_set_nan.
  rewrite Hrows. cbn [Nat.eqb andb]. by rewrite bool_decide_eq_false_2.
Qed.

Lemma cull_fakestars_no_rows_witness :
  cull_fakestars catalog_no_rows ["WFC3_F814W"; "ACS_F475W"] ∅ =
  Raised ValueError catalog_no_rows (detector_class "wfc3" "f814w" ∅).2.
Proof.
  apply (cull_fakestars_no_rows catalog_no_rows "WFC3_F814W" ["ACS_F475W"] ∅
           "wfc3" "f814w" KeyError).
  - reflexivity.
  - reflexivity.
  - vm_compute. reflexivity.
  - intros Hin. apply (bool_decide_eq_true_2 _) in Hin. vm_compute in Hin. discriminate.
Defined.

(** ** The classifier: establishing a property of one filter *)

Section Establish.

Variable Pre : frame -> params -> Prop.
Variable Q : frame -> Prop.
Variable snrcut : pyval.
Variable name : string.

Hypothesis Pre_step : forall df p filt d f,
  Pre df p -> unpack2 (PyStr.split "_" (PyStr.lower filt)) = Ok (d, f) ->
  Pre (cull_filter df (PyStr.lower filt) (detector_class d f p).1 snrcut
         (detector_class d f p).2).1
      (detector_class d f p).2.

Hypothesis Q_here : forall df p filt d f,
  Pre df p -> PyStr.lower filt = name ->
  unpack2 (PyStr.split "_" (PyStr.lower filt)) = Ok (d, f) ->
  (cull_filter df name (detector_class d f p).1 snrcut (detector_class d f p).2).2 = None ->
  Q (cull_filter df name (detector_class d f p).1 snrcut (detector_class d f p).2).1.

Hypothesis Q_other : forall df other d p,
  other <> name -> Q df -> Q (cull_filter df other d snrcut p).1.

Lemma cull_loop_establishes filters : forall df p df' p',
  Pre df p ->
  cull_loop snrcut filters df p = Returned df' p' ->
  Q df \/ name ∈ PyStr.lower <$> filters ->
  Q df'.
Proof using Pre_step Q_here Q_other.
  induction filters as [|filt rest IH]; simpl; intros df p df' p' Hpre Hrun Hq.
  - simplify_eq. destruct Hq as [Hq|Hq]; [done | by apply elem_of_nil in Hq].
  - destruct (unpack2 _) as [[d f]|e] eqn:Hsplit; [|done].
    pose proof (Pre_step df p filt d f Hpre Hsplit) as Hpre'.
    pose proof (Q_here df p filt d f Hpre) as Hhere.
    destruct (detector_class d f p) as [d' p1]. simpl in Hpre', Hhere.
    pose proof (Q_other df (PyStr.lower filt) d' p1) as Hother.
    destruct (decide (PyStr.lower filt = name)) as [Heq|Hne].
    + rewrite <- Heq in Hhere.
      destruct (cull_filter _ _ _ _ _) as [df1 [e0|]]; [done|].
      eapply IH; [exact Hpre' | exact Hrun |]. left. by apply Hhere.
    + destruct (cull_filter _ _ _ _ _) as [df1 [e0|]]; [done|].
      eapply IH; [exact Hpre' | exact Hrun |].
      destruct Hq as [Hq|Hq]; [left; by apply Hother|].
      apply elem_of_cons in Hq as [Hq|Hq]; [done | by right].
Qed.

End Establish.

(** ** The classifier: instruments without a class *)

Lemma detector_class_unmapped d f p :
  d ∉ ["wfc3"; "acs"; "nircam"] -> detector_class d f p = (d, p).
Proof.
  intros Hd.
  assert (H1 : String.eqb d "wfc3" = false)
    by (apply String.eqb_neq; intros ->; apply Hd; in_list).
  assert (H2 : String.eqb d "acs" = false)
    by (apply String.eqb_neq; intros ->; apply Hd; in_list).
  assert (H3 : String.eqb d "nircam" = false)
    by (apply String.eqb_neq; intros ->; apply Hd; in_list).
  unfold detector_class.
  rewrite H1. cbn [andb]. rewrite H1. cbn [andb]. rewrite H2, H3. reflexivity.
Qed.

Lemma closed_label_inj d c suffix :
  rev (label_chars d) = rev (label_chars c) -> d +:+ suffix = c +:+ suffix.
Proof. intros H. by rewrite (rev_label_inj _ _ H). Qed.

(** The keys with a default are those of the four classes. *)
Lemma default_cut_class d key v :
  key = d +:+ "_sharp" \/ key = d +:+ "_crowd" ->
  (key, v) ∈ default_cuts -> d ∈ ["ir"; "uvis"; "wfc"; "nircam"].
Proof.
  intros Hkey Hin. unfold default_cuts in Hin.
  repeat (apply elem_of_cons in Hin as [Hin|Hin]);
    try (by apply elem_of_nil in Hin);
    injection Hin as Hk _; destruct Hkey as [->| ->];
    apply rev_label_chars in Hk; rewrite label_chars_app in Hk; simpl in Hk;
    rewrite rev_app_distr in Hk; simpl in Hk; simplify_eq;
    match goal with
    | E : rev (label_chars d) = ?l |- _ =>
        first
          [ apply (rev_label_inj d "ir") in E
          | apply (rev_label_inj d "uvis") in E
          | apply (rev_label_inj d "wfc") in E
          | apply (rev_label_inj d "nircam") in E ]
    end;
    subst; in_list.
Qed.

Lemma missing_cut_raises df name d snrcut p key :
  key = d +:+ "_sharp" \/ key = d +:+ "_crowd" ->
  p !! key = None ->
  exists e, cut_conditions df name d snrcut p = Raise e.
Proof.
  intros Hkey Hnone. unfold cut_conditions, param_get.
  destruct (loc_col (name +:+ "_snr") df) as [c1|]; cbn [pybind]; [|by eauto].
  destruct (col_gt c1 snrcut) as [b1|]; cbn [pybind]; [|by eauto].
  destruct (loc_col (name +:+ "_sharp") df) as [c2|]; cbn [pybind]; [|by eauto].
  destruct (square c2) as [c2'|]; cbn [pybind]; [|by eauto].
  destruct (p !! (d +:+ "_sharp")) as [v2|] eqn:E2; cbn [pybind]; [|by eauto].
  destruct (col_lt c2' v2) as [b2|]; cbn [pybind]; [|by eauto].
  destruct (loc_col (name +:+ "_crowd") df) as [c3|]; cbn [pybind]; [|by eauto].
  destruct (p !! (d +:+ "_crowd")) as [v3|] eqn:E3; cbn [pybind]; [|by eauto].
  destruct Hkey as [->| ->]; congruence.
Qed.

Lemma unmapped_token d :
  d ∉ ["wfc3"; "acs"; "nircam"; "ir"; "uvis"; "wfc"] ->
  (d ∉ ["wfc3"; "acs"; "nircam"]) /\ (d ∉ ["ir"; "uvis"; "wfc"; "nircam"]).
Proof.
  intros H. split; intros Hin; apply H;
    repeat (apply elem_of_cons in Hin as [->|Hin]; [in_list|]);
    by apply elem_of_nil in Hin.
Qed.

(** X5. An identifier whose instrument token is none of wfc3, acs and
    nircam, nor the name of a class, gets no default: when the
    parameters lack the sharpness or the crowding cut under that token,
    the call (on a catalog with at least one row and a list of
    well-formed identifiers) returns with both flag columns of the
    identifier holding NaN, and the key is still absent afterwards. *)
Theorem unmapped_instrument_flags_undefined df filter_detectors p X d f key :
  0 < nrows df ->
  (forall filt, filt ∈ filter_detectors -> count_char "_"%char filt = 1) ->
  X ∈ filter_detectors ->
  unpack2 (PyStr.split "_" (PyStr.lower X)) = Ok (d, f) ->
  d ∉ ["wfc3"; "acs"; "nircam"; "ir"; "uvis"; "wfc"] ->
  key = d +:+ "_sharp" \/ key = d +:+ "_crowd" ->
  p !! key = None ->
  exists df' p',
    cull_fakestars df filter_detectors p = Returned df' p' /\
    p' !! key = None /\
    frame_get (PyStr.lower X +:+ "_st") df' = Some (nan_column df) /\
    frame_get (PyStr.lower X +:+ "_gst") df' = Some (nan_column df).
Proof.
  intros Hpos Hids HX Hsplit Hd Hkey Hnone.
  destruct (cull_loop_returns_rows (read_snrcut p) filter_detectors df p Hpos Hids)
    as (df' & p' & Hrun).
  fold (cull_fakestars df filter_detectors p) in Hrun.
  destruct (unmapped_token d Hd) as [Hinstrument Hclass].
  assert (Hnoclass : forall v, (key, v) ∉ default_cuts).
  { intros v Hin. by apply (default_cut_class d key v Hkey) in Hin. }
  exists df', p'. split; [exact Hrun|]. split.
  { pose proof (cull_loop_gained (read_snrcut p) filter_detectors df p p
                  (gained_defaults_refl p) key) as Hp.
    fold (cull_fakestars df filter_detectors p) in Hp.
    rewrite Hrun in Hp. simpl in Hp.
    destruct Hp as [Hp|(_ & v & Hv & _)]; [congruence | by apply Hnoclass in Hv]. }
  apply (cull_loop_establishes
           (fun df0 p0 => p0 !! key = None /\ nrows df0 = nrows df)
           (fun df0 =>
              frame_get (PyStr.lower X +:+ "_st") df0 = Some (nan_column df) /\
              frame_get (PyStr.lower X +:+ "_gst") df0 = Some (nan_column df))
           (read_snrcut p) (PyStr.lower X)) with (filters := filter_detectors)
           (df := df) (p := p) (p' := p').
  - intros df0 p0 filt d0 f0 [Hp0 Hrows] _. split; [|by rewrite cull_filter_nrows].
    destruct (gained_defaults_class p0 p0 d0 f0 (gained_defaults_refl p0) key)
      as [Hsame|(_ & v & Hv & _)]; [congruence | by apply Hnoclass in Hv].
  - intros df0 p0 filt d0 f0 [Hp0 Hrows] Hname Hsplit0 _.
    rewrite Hname, Hsplit in Hsplit0. injection Hsplit0 as <- <-.
    rewrite detector_class_unmapped by done. simpl.
    rewrite cull_filter_rows_st, cull_filter_rows_gst by lia.
    destruct (missing_cut_raises df0 (PyStr.lower X) d (read_snrcut p) p0 key Hkey Hp0)
      as [e ->].
    simpl. unfold nan_column. by rewrite Hrows.
  - intros df0 other d0 p0 Hne [Hst Hgst].
    rewrite !cull_filter_other; [done|label_neq..].
  - done.
  - exact Hrun.
  - right. by apply list_elem_of_fmap_2.
Qed.

Lemma unmapped_instrument_flags_undefined_witness :
  exists df' p',
    cull_fakestars catalog_wfpc2 ["WFPC2_F555W"] ∅ = Returned df' p' /\
    p' !! "wfpc2_sharp" = None /\
    frame_get "wfpc2_f555w_st" df' = Some (CFloat [nan; nan]) /\
    frame_get "wfpc2_f555w_gst" df' = Some (CFloat [nan; nan]).
Proof.
  apply (unmapped_instrument_flags_undefined catalog_wfpc2 ["WFPC2_F555W"] ∅
           "WFPC2_F555W" "wfpc2" "f555w" "wfpc2_sharp").
  - simpl. lia.
  - intros filt Hin. apply elem_of_cons in Hin as [->|Hin]; [reflexivity|].
    by apply elem_of_nil in Hin.
  - apply list_elem_of_here.
  - reflexivity.
  - intros Hin. repeat (apply elem_of_cons in Hin as [Hin|Hin]; [discriminate|]).
    by apply elem_of_nil in Hin.
  - by left.
  - reflexivity.
Defined.

(** ** The classifier: missing measurements *)

Lemma ltb_nan_r c : PrimFloat.ltb c nan = false.
Proof.
  rewrite FloatAxioms.ltb_spec.
  change (FloatOps.Prim2SF nan) with SpecFloat.S754_nan.
  unfold SpecFloat.SFltb, SpecFloat.SFcompare. by destruct (FloatOps.Prim2SF c).
Qed.

Lemma ltb_nan_l c : PrimFloat.ltb nan c = false.
Proof.
  rewrite FloatAxioms.ltb_spec.
  change (FloatOps.Prim2SF nan) with SpecFloat.S754_nan.
  reflexivity.
Qed.

Lemma cut_conditions_ok df name d snrcut p snr_condition sharp_condition crowd_condition :
  cut_conditions df name d snrcut p = Ok (snr_condition, sharp_condition, crowd_condition) ->
  exists c1 c2 c2' v2 c3 v3,
    frame_get (name +:+ "_snr") df = Some c1 /\ col_gt c1 snrcut = Ok snr_condition /\
    frame_get (name +:+ "_sharp") df = Some c2 /\ square c2 = Ok c2' /\
    col_lt c2' v2 = Ok sharp_condition /\
    frame_get (name +:+ "_crowd") df = Some c3 /\ col_lt c3 v3 = Ok crowd_condition.
Proof.
  unfold cut_conditions, loc_col, param_get. intros H.
  destruct (frame_get (name +:+ "_snr") df) as [c1|]; cbn [pybind] in H; [|done].
  destruct (col_gt c1 snrcut) as [b1|] eqn:H1; cbn [pybind] in H; [|done].
  destruct (frame_get (name +:+ "_sharp") df) as [c2|]; cbn [pybind] in H; [|done].
  destruct (square c2) as [c2'|] eqn:H2; cbn [pybind] in H; [|done].
  destruct (p !! (d +:+ "_sharp")) as [v2|]; cbn [pybind] in H; [|done].
  destruct (col_lt c2' v2) as [b2|] eqn:H2'; cbn [pybind] in H; [|done].
  destruct (frame_get (name +:+ "_crowd") df) as [c3|]; cbn [pybind] in H; [|done].
  destruct (p !! (d +:+ "_crowd")) as [v3|]; cbn [pybind] in H; [|done].
  destruct (col_lt c3 v3) as [b3|] eqn:H3; cbn [pybind] in H; [|done].
  injection H as <- <- <-.
  by exists c1, c2, c2', v2, c3, v3.
Qed.

(** No comparison holds of NaN. *)
Lemma col_gt_nan xs v bs (i : nat) :
  col_gt (CFloat xs) v = Ok bs -> xs !! i = Some nan -> bs !! i = Some false.
Proof.
  unfold col_gt, compare_scalar. destruct v as [y|t]; [|done]. cbn [numeric pybind].
  intros [= <-] Hnan. rewrite list_lookup_fmap, Hnan. simpl. by rewrite ltb_nan_r.
Qed.

Lemma col_lt_nan xs v bs (i : nat) :
  col_lt (CFloat xs) v = Ok bs -> xs !! i = Some nan -> bs !! i = Some false.
Proof.
  unfold col_lt, compare_scalar. destruct v as [y|t]; [|done]. cbn [numeric pybind].
  intros [= <-] Hnan. rewrite list_lookup_fmap, Hnan. simpl. by rewrite ltb_nan_l.
Qed.

Lemma zip_andb_false_l (l k : list bool) (i : nat) :
  l !! i = Some false -> zip_with andb l k !! i <> Some true.
Proof. intros Hl Hi. apply zip_andb_true in Hi as [Hi _]. congruence. Qed.

Lemma zip_andb_false_r (l k : list bool) (i : nat) :
  k !! i = Some false -> zip_with andb l k !! i <> Some true.
Proof. intros Hk Hi. apply zip_andb_true in Hi as [_ Hi]. congruence. Qed.

Lemma cull_filter_none_pair df name d snrcut p :
  (cull_filter df name d snrcut p).2 = None ->
  cull_filter df name d snrcut p = ((cull_filter df name d snrcut p).1, None).
Proof. destruct (cull_filter df name d snrcut p) as [df' o]. simpl. by intros ->. Qed.

Lemma nan_row_fails_here df name d snrcut p label xs (i : nat) :
  label ∈ input_labels name ->
  frame_get label df = Some (CFloat xs) ->
  xs !! i = Some nan ->
  (cull_filter df name d snrcut p).2 = None ->
  row_fails name i (label <> name +:+ "_crowd") (cull_filter df name d snrcut p).1.
Proof.
  intros Hlabel Hcol Hnan Hdone%cull_filter_none_pair. unfold row_fails.
  rewrite (cull_filter_st _ _ _ _ _ _ Hdone), (cull_filter_gst _ _ _ _ _ _ Hdone).
  destruct (cut_conditions df name d snrcut p) as [[[a b] c]|e] eqn:Hcut; simpl;
    [|split; [intros gst H | intros _ st H]; discriminate].
  apply cut_conditions_ok in Hcut
    as (c1 & c2 & c2' & v2 & c3 & v3 & G1 & N1 & G2 & S2 & N2 & G3 & N3).
  unfold input_labels in Hlabel.
  apply elem_of_cons in Hlabel as [->|Hlabel];
    [|apply elem_of_cons in Hlabel as [->|Hlabel];
      [|apply elem_of_cons in Hlabel as [->|Hlabel]; [|by apply elem_of_nil in Hlabel]]].
  - rewrite Hcol in G1. injection G1 as <-.
    pose proof (col_gt_nan _ _ _ i N1 Hnan) as Ha.
    split; [intros gst [= <-] | intros _ st [= <-]].
    + intros Hi. apply zip_andb_true in Hi as [Hi _]. by apply zip_andb_false_l in Hi.
    + by apply zip_andb_false_l.
  - rewrite Hcol in G2. injection G2 as <-. cbn [square] in S2. injection S2 as <-.
    assert (Hb : b !! i = Some false).
    { apply (col_lt_nan _ _ _ i N2). rewrite list_lookup_fmap, Hnan. reflexivity. }
    split; [intros gst [= <-] Hi | intros _ st [= <-]].
    + apply zip_andb_true in Hi as [Hi _]. by apply zip_andb_false_r in Hi.
    + by apply zip_andb_false_r.
  - rewrite Hcol in G3. injection G3 as <-.
    pose proof (col_lt_nan _ _ _ i N3 Hnan) as Hc.
    split; [intros gst [= <-] | by intros Hne].
    by apply zip_andb_false_r.
Qed.

(** X6. A row that holds NaN (the value read for the sentinel 99.999)
    in a float input column of a listed filter never has that filter's
    [_gst] flag true after the call, and never its [_st] flag when the
    NaN is in the signal-to-noise or the sharpness column, whatever the
    cuts are. *)
Theorem nan_rows_never_pass df filter_detectors p df' p' filt label xs (i : nat) :
  cull_fakestars df filter_detectors p = Returned df' p' ->
  filt ∈ filter_detectors ->
  label ∈ input_labels (PyStr.lower filt) ->
  frame_get label df = Some (CFloat xs) ->
  xs !! i = Some nan ->
  (forall gst, frame_get (PyStr.lower filt +:+ "_gst") df' = Some (CBool gst) ->
     gst !! i <> Some true) /\
  (label <> PyStr.lower filt +:+ "_crowd" ->
   forall st, frame_get (PyStr.lower filt +:+ "_st") df' = Some (CBool st) ->
     st !! i <> Some true).
Proof.
  intros Hrun Hfilt Hlabel Hcol Hnan.
  assert (Hflag : forall other, label <> other +:+ "_st" /\ label <> other +:+ "_gst").
  { intros other. unfold input_labels in Hlabel.
    repeat (apply elem_of_cons in Hlabel as [->|Hlabel]);
      try (by apply elem_of_nil in Hlabel); split; label_neq. }
  apply (cull_loop_establishes
           (fun df0 _ => frame_get label df0 = Some (CFloat xs))
           (row_fails (PyStr.lower filt) i (label <> PyStr.lower filt +:+ "_crowd"))
           (read_snrcut p) (PyStr.lower filt)) with (filters := filter_detectors)
           (df := df) (p := p) (p' := p').
  - intros df0 p0 filt0 d0 f0 Hpre _.
    destruct (Hflag (PyStr.lower filt0)) as [H1 H2]. by rewrite cull_filter_other.
  - intros df0 p0 filt0 d0 f0 Hpre _ _ Hdone. by eapply nan_row_fails_here.
  - intros df0 other d0 p0 Hne [Hgst Hst]. unfold row_fails.
    rewrite !cull_filter_other; [done|label_neq..].
  - exact Hcol.
  - exact Hrun.
  - right. by apply list_elem_of_fmap_2.
Qed.

Lemma nan_rows_never_pass_witness :
  (forall gst,
     frame_get "wfc3_f814w_gst"
       (outcome_frame (cull_fakestars catalog_nan ["WFC3_F814W"] ∅)) = Some (CBool gst) ->
     gst !! 1%nat <> Some true) /\
  ("wfc3_f814w_snr" <> "wfc3_f814w_crowd" ->
   forall st,
     frame_get "wfc3_f814w_st"
       (outcome_frame (cull_fakestars catalog_nan ["WFC3_F814W"] ∅)) = Some (CBool st) ->
     st !! 1%nat <> Some true).
Proof.
  apply (nan_rows_never_pass catalog_nan ["WFC3_F814W"] ∅
           (outcome_frame (cull_fakestars catalog_nan ["WFC3_F814W"] ∅))
           (outcome_params (cull_fakestars catalog_nan ["WFC3_F814W"] ∅))
           "WFC3_F814W" "wfc3_f814w_snr" [5.0%float; nan] 1).
  - vm_compute. reflexivity.
  - apply list_elem_of_here.
  - apply list_elem_of_here.
  - reflexivity.
  - reflexivity.
Defined.

(** ** The writer: failures *)

Lemma string_length_app s t :
  String.length (s +:+ t) = (String.length s + String.length t)%nat.
Proof. induction s as [|c s IH]; simpl; [done|]. by rewrite IH. Qed.

Lemma replace_go_length old new s : forall skip,
  1 <= String.length old -> String.length old <= String.length new ->
  String.length s <= String.length (PyStr.replace_go old new skip s) + skip.
Proof.
  induction s as [|c s IH]; intros skip Hold Hnew; cbn [PyStr.replace_go]; [simpl; lia|].
  destruct skip as [|k].
  - destruct (String.prefix old (String c s)).
    + rewrite string_length_app. specialize (IH (String.length old - 1)%nat Hold Hnew).
      cbn [String.length]. lia.
    + specialize (IH 0%nat Hold Hnew). cbn [String.length]. lia.
  - specialize (IH k Hold Hnew). cbn [String.length]. lia.
Qed.

Lemma replace_hdf5_longer s :
  String.length (s +:+ ".hdf5") <
  String.length (PyStr.replace ".hdf5" "_full.hdf5" (s +:+ ".hdf5")).
Proof.
  unfold PyStr.replace. induction s as [|c s IH]; [vm_compute; lia|].
  change (String c s +:+ ".hdf5") with (String c (s +:+ ".hdf5")).
  cbn [PyStr.replace_go].
  destruct (String.prefix ".hdf5" (String c (s +:+ ".hdf5"))).
  - rewrite string_length_app.
    pose proof (replace_go_length ".hdf5" "_full.hdf5" (s +:+ ".hdf5")
                  (String.length ".hdf5" - 1)%nat) as Hlen.
    cbn [String.length] in *. lia.
  - cbn [String.length]. cbn [String.length] in IH. lia.
Qed.

Lemma replace_hdf5_differs s :
  PyStr.replace ".hdf5" "_full.hdf5" (s +:+ ".hdf5") <> s +:+ ".hdf5".
Proof. intros H. pose proof (replace_hdf5_longer s) as Hlen. rewrite H in Hlen. lia. Qed.

Section WriterProperties.

Variable all_pix2world :
  string -> column -> column -> pyresult (list float * list float).
Variable re_compile : string -> pyresult (string -> bool).
Variable header_table : pyresult frame.
Variable drzfiles : list string.
Variable files : gmap string rawfile.

Lemma to_hdf_lookup path key mode df (fs : hdfstore) :
  is_Some (to_hdf path key mode df fs !! path).
Proof. unfold to_hdf. rewrite lookup_insert_eq. by eexists. Qed.

Lemma to_hdf_other path key mode df (fs : hdfstore) other :
  other <> path -> to_hdf path key mode df fs !! other = fs !! other.
Proof. intros Hne. unfold to_hdf. by rewrite lookup_insert_ne. Qed.

Lemma write_filters_other filters df outfile_full : forall (fs : hdfstore) other,
  other <> outfile_full ->
  (write_filters re_compile filters df outfile_full fs).1 !! other = fs !! other.
Proof.
  induction filters as [|f rest IH]; simpl; intros fs other Hne; [done|].
  destruct (frame_filter _ _ _) as [section|e]; [|done].
  rewrite IH by done. by apply to_hdf_other.
Qed.

Lemma write_filters_lookup filters df outfile_full : forall (fs : hdfstore),
  is_Some (fs !! outfile_full) ->
  is_Some ((write_filters re_compile filters df outfile_full fs).1 !! outfile_full).
Proof.
  induction filters as [|f rest IH]; simpl; intros fs Hfile; [done|].
  destruct (frame_filter _ _ _) as [section|e]; [|done].
  apply IH, to_hdf_lookup.
Qed.


(** X8. Names shared by two raw indices, which [name_columns] lets
    through, stop [read_fakestars] when the measurement file is read:
    the call fails with ValueError and has written nothing. *)
Theorem read_fakestars_rejects_shared_names g w fakefile columns_df filters photfile raw :
  g_photfile g = Some photfile ->
  files !! photfile = Some raw ->
  ~ NoDup (columns_df.*2) ->
  read_fakestars all_pix2world re_compile header_table drzfiles files
    g w fakefile columns_df filters = Failed ValueError w.
Proof.
  intros Hphot Hfile Hdup. unfold read_fakestars.
  rewrite Hphot. cbn [global_name]. rewrite Hfile. cbn [pybind].
  unfold read_csv. by rewrite bool_decide_eq_false_2.
Qed.


(** X10. Whether it finishes or fails, [read_fakestars] touches two
    files of the store at most: the one named after the photometry
    file and the one it renames it to. *)
Theorem read_fakestars_touches_two_files g w fakefile columns_df filters photfile path :
  g_photfile g = Some photfile ->
  path <> photfile +:+ ".hdf5" ->
  path <> PyStr.replace ".hdf5" "_full.hdf5" (photfile +:+ ".hdf5") ->
  w_hdf (run_world (read_fakestars all_pix2world re_compile header_table drzfiles files
                      g w fakefile columns_df filters)) !! path =
  w_hdf w !! path.
Proof.
  intros Hphot Hout Hfull. unfold read_fakestars.
  rewrite Hphot. cbn [global_name].
  destruct (pybind _ _) as [df|]; [|done].
  destruct header_table as [header_df|]; [|done].
  cbn [w_hdf w_params].
  destruct (frame_select _ df) as [df0|]; cbn [run_world w_hdf]; [|by apply to_hdf_other].
  destruct (cull_fakestars df0 filters (w_params w)) as [df1 p1|e1 df1 p1];
    cbn [run_world w_hdf]; [|by apply to_hdf_other].
  destruct (add_wcs all_pix2world df1 photfile drzfiles).2 as [df2|];
    cbn [run_world w_hdf]; [|by apply to_hdf_other].
  destruct (os_rename _ _ _) as [fs|] eqn:Hrename; cbn [run_world w_hdf].
  - pose proof (write_filters_other filters df
                  (PyStr.replace ".hdf5" "_full.hdf5" (photfile +:+ ".hdf5")) fs path Hfull)
      as Hother.
    destruct (write_filters _ _ _ _ _) as [fs' [e'|]]; cbn [run_world w_hdf fst] in *;
      rewrite Hother;
      (unfold os_rename in Hrename; destruct (_ !! _) as [file|]; [|done];
       injection Hrename as <-;
       rewrite lookup_insert_ne, lookup_delete_ne by done;
       rewrite to_hdf_other by done; by apply to_hdf_other).
  - rewrite to_hdf_other by done. by apply to_hdf_other.
Qed.

End WriterProperties.

Lemma read_fakestars_rejects_shared_names_witness :
  read_fakestars pix2world_identity re_compile_plain example_header [] example_files
    (script_globals "field.phot") (World ∅ ∅) "field.phot.fake"
    shared_name_columns ["WFC3_F814W"] = Failed ValueError (World ∅ ∅).
Proof.
  apply (read_fakestars_rejects_shared_names pix2world_identity re_compile_plain
           example_header [] example_files (script_globals "field.phot") (World ∅ ∅)
           "field.phot.fake" shared_name_columns ["WFC3_F814W"] "field.phot"
           (RawFile 2 (replicate 21 (RFloat [5.0; 0.25]%float)))).
  - reflexivity.
  - reflexivity.
  - intros Hnd. apply (bool_decide_eq_true_2 _) in Hnd. vm_compute in Hnd. discriminate.
Defined.


Lemma read_fakestars_touches_two_files_witness :
  w_hdf (run_world failing_run) !! "earlier.hdf5" = Some [("data", catalog_xy)].
Proof.
  apply (read_fakestars_touches_two_files pix2world_identity re_compile_plain example_header
           [] example_files (script_globals "field.phot") (World example_store ∅)
           "field.phot.fake" example_columns ["F814W"] "field.phot" "earlier.hdf5").
  - reflexivity.
  - discriminate.
  - intros H. vm_compute in H. discriminate.
Defined.

(** ** The filter list written back *)

Lemma split_go_no_sep a s :
  count_char a s = 0 -> PyStr.split_go (String a EmptyString) 0 s = [s].
Proof.
  induction s as [|c s IH]; [done|]. cbn [count_char]. rewrite split_go_char.
  destruct (Ascii.eqb c a); [simpl; lia|]. intros H. by rewrite IH.
Qed.

Lemma split_go_sep_app a s rest :
  count_char a s = 0 ->
  PyStr.split_go (String a EmptyString) 0 (s +:+ String a rest) =
  s :: PyStr.split_go (String a EmptyString) 0 rest.
Proof.
  induction s as [|c s IH]; cbn [count_char].
  - intros _. change (EmptyString +:+ String a rest) with (String a rest).
    by rewrite split_go_char, Ascii.eqb_refl.
  - change (String c s +:+ String a rest) with (String c (s +:+ String a rest)).
    rewrite split_go_char. destruct (Ascii.eqb c a); [simpl; lia|].
    intros H. by rewrite IH.
Qed.

Lemma split_join a filters :
  filters <> [] ->
  (forall f, f ∈ filters -> count_char a f = 0) ->
  PyStr.split (String a EmptyString) (PyStr.join (String a EmptyString) filters) = filters.
Proof.
  unfold PyStr.split, PyStr.join.
  induction filters as [|f rest IH]; [done|]. intros _ Hno.
  destruct rest as [|f' rest].
  - cbn [String.concat]. apply split_go_no_sep, Hno, list_elem_of_here.
  - change (String.concat (String a EmptyString) (f :: f' :: rest))
      with (f +:+ String a (String.concat (String a EmptyString) (f' :: rest))).
    rewrite split_go_sep_app by (apply Hno, list_elem_of_here).
    f_equal. apply IH; [done|]. intros g Hg. apply Hno. by apply list_elem_of_further.
Qed.

(** X11. The filter list that a finished [read_fakestars] stores under
    [det_filters] is read back whole by the split at commas with which
    the script reads that parameter (line 442), as long as the list is
    not empty and no identifier contains a comma. *)
Theorem det_filters_round_trip
    all_pix2world re_compile header_table drzfiles files g w fakefile columns_df filters
    v w' :
  read_fakestars all_pix2world re_compile header_table drzfiles files
    g w fakefile columns_df filters = Finished v w' ->
  filters <> [] ->
  (forall f, f ∈ filters -> count_char ","%char f = 0) ->
  exists s, w_params w' !! "det_filters" = Some (PStr s) /\ PyStr.split "," s = filters.
Proof.
  unfold read_fakestars. intros Hrun Hne Hcomma.
  exists (PyStr.join "," filters). split; [|by apply split_join].
  repeat (case_match; try discriminate).
  injection Hrun as _ <-. cbn [w_params]. apply lookup_insert_eq.
Qed.

Lemma det_filters_round_trip_witness :
  exists s,
    w_params (run_world example_run) !! "det_filters" = Some (PStr s) /\
    PyStr.split "," s = ["WFC3_F814W"].
Proof.
  apply (det_filters_round_trip pix2world_identity re_compile_plain example_header []
           example_files (script_globals "field.phot") (World ∅ ∅) "field.phot.fake"
           example_columns ["WFC3_F814W"] PyNone (run_world example_run)).
  - vm_compute. reflexivity.
  - discriminate.
  - intros f Hin. apply elem_of_cons in Hin as [->|Hin]; [reflexivity|].
    by apply elem_of_nil in Hin.
Defined.

(** ** Coordinates: when they are attached *)

Lemma frame_insert_ok loc name vals df df' :
  frame_insert loc name vals df = Ok df' ->
  (name ∉ labels df) /\ length vals = nrows df /\ loc <= length (cols df) /\
  df' = Frame (nrows df) (take loc (cols df) ++ (name, CFloat vals) :: drop loc (cols df)).
Proof.
  unfold frame_insert. intros H.
  destruct (bool_decide (name ∈ labels df)) eqn:Hin; [done|].
  apply bool_decide_eq_false_1 in Hin.
  destruct (length vals =? nrows df)%nat eqn:Hlen; [|done]. apply Nat.eqb_eq in Hlen.
  cbn [negb] in H.
  destruct (length (cols df) <? loc)%nat eqn:Hloc; [done|]. apply Nat.ltb_ge in Hloc.
  by injection H as <-.
Qed.

Lemma alist_get_app {A} name (l1 l2 : list (string * A)) :
  Alist.get name (l1 ++ l2) =
  match Alist.get name l1 with
  | Some c => Some c
  | None => Alist.get name l2
  end.
Proof.
  induction l1 as [|[n c] l1 IH]; simpl; [done|]. by destruct (String.eqb n name).
Qed.

Lemma alist_get_inserted {A} loc name other (c : A) l :
  other <> name ->
  Alist.get other (take loc l ++ (name, c) :: drop loc l) = Alist.get other l.
Proof.
  intros Hne. rewrite alist_get_app. cbn [Alist.get].
  rewrite (proj2 (String.eqb_neq name other)) by done.
  transitivity (Alist.get other (take loc l ++ drop loc l));
    [by rewrite alist_get_app | by rewrite take_drop].
Qed.

Lemma alist_get_labels {A} name (l : list (string * A)) :
  is_Some (Alist.get name l) -> name ∈ l.*1.
Proof.
  induction l as [|[n c] l IH]; simpl; intros [x Hx]; [done|].
  destruct (String.eqb n name) eqn:Hn.
  - apply String.eqb_eq in Hn as ->. apply list_elem_of_here.
  - apply list_elem_of_further, IH. by exists x.
Qed.

(** X12. The conditions under which C7 shows coordinates attached are
    all needed: with one reference image, [add_wcs] returns a catalog
    only if the input has columns [x] and [y], the projection answers
    with one right ascension and one declination per row, the catalog
    has at least four columns, and none is called [ra] or [dec]. *)
Theorem add_wcs_success_requires all_pix2world df photfile drzfile df' :
  (add_wcs all_pix2world df photfile [drzfile]).2 = Ok df' ->
  exists x y ra dec,
    frame_get "x" df = Some x /\ frame_get "y" df = Some y /\
    all_pix2world drzfile x y = Ok (ra, dec) /\
    length ra = nrows df /\ length dec = nrows df /\
    4 <= length (cols df) /\
    ("ra" ∉ labels df) /\ ("dec" ∉ labels df).
Proof.
  unfold add_wcs, attr_col. cbn [length Nat.eqb Nat.ltb Nat.leb snd]. intros H.
  destruct (frame_get "x" df) as [x|]; cbn [pybind] in H; [|done].
  destruct (frame_get "y" df) as [y|]; cbn [pybind] in H; [|done].
  destruct (all_pix2world drzfile x y) as [[ra dec]|] eqn:Hwcs; cbn [pybind fst snd] in H;
    [|done].
  destruct (frame_insert 4 "ra" ra df) as [df1|] eqn:Hra; cbn [pybind] in H; [|done].
  apply frame_insert_ok in Hra as (Hnra & Hlra & Hcols & ->).
  apply frame_insert_ok in H as (Hndec & Hldec & _ & _). cbn [nrows] in Hldec.
  exists x, y, ra, dec. repeat split; try done.
  intros Hin. apply Hndec. unfold labels in *. cbn [cols].
  rewrite fmap_app, fmap_cons, elem_of_app, elem_of_cons, fmap_take, fmap_drop.
  rewrite <- (take_drop 4 ((cols df).*1)), elem_of_app in Hin. tauto.
Qed.

Lemma add_wcs_success_requires_witness :
  exists x y ra dec,
    frame_get "x" catalog_xy = Some x /\ frame_get "y" catalog_xy = Some y /\
    pix2world_identity "ref_drz.chip1.fits" x y = Ok (ra, dec) /\
    length ra = nrows catalog_xy /\ length dec = nrows catalog_xy /\
    4 <= length (cols catalog_xy) /\
    ("ra" ∉ labels catalog_xy) /\ ("dec" ∉ labels catalog_xy).
Proof.
  apply (add_wcs_success_requires pix2world_identity catalog_xy "field.phot"
           "ref_drz.chip1.fits" catalog_radec).
  reflexivity.
Defined.

(** X13. [add_wcs] cannot be applied twice: on a catalog that a call
    with one reference image returned, a second call with the same
    reference image raises ValueError, for the projection answers as
    before and the column [ra] exists already. *)
Theorem add_wcs_not_repeatable all_pix2world df photfile drzfile df' :
  (add_wcs all_pix2world df photfile [drzfile]).2 = Ok df' ->
  (add_wcs all_pix2world df' photfile [drzfile]).2 = Raise ValueError.
Proof.
  intros H. unfold add_wcs, attr_col in *. cbn [length Nat.eqb Nat.ltb Nat.leb snd] in *.
  destruct (frame_get "x" df) as [x|] eqn:Hx; cbn [pybind] in H; [|done].
  destruct (frame_get "y" df) as [y|] eqn:Hy; cbn [pybind] in H; [|done].
  destruct (all_pix2world drzfile x y) as [[ra dec]|] eqn:Hwcs; cbn [pybind fst snd] in H;
    [|done].
  destruct (frame_insert 4 "ra" ra df) as [df1|] eqn:Hra; cbn [pybind] in H; [|done].
  apply frame_insert_ok in Hra as (_ & _ & _ & ->).
  apply frame_insert_ok in H as (_ & _ & _ & ->). cbn [nrows cols].
  unfold frame_get. cbn [cols].
  rewrite !alist_get_inserted by done. fold (frame_get "x" df). fold (frame_get "y" df).
  rewrite Hx, Hy. cbn [pybind]. rewrite Hwcs. cbn [pybind fst snd].
  unfold frame_insert.
  rewrite bool_decide_eq_true_2; [done|].
  unfold labels. cbn [cols]. apply alist_get_labels.
  rewrite alist_get_inserted by done. rewrite alist_get_app.
  destruct (Alist.get "ra" (take 4 (cols df))); [by eexists|].
  cbn [Alist.get]. by eexists.
Qed.

Lemma add_wcs_not_repeatable_witness :
  (add_wcs pix2world_identity catalog_radec "field.phot" ["ref_drz.chip1.fits"]).2 =
  Raise ValueError.
Proof.
  apply (add_wcs_not_repeatable pix2world_identity catalog_xy "field.phot"
           "ref_drz.chip1.fits" catalog_radec).
  reflexivity.
Defined.

(** ** Schema resolution: what a call needs *)

Lemma loc_assign_ok a b vals df df' :
  loc_assign a b vals df = Ok df' ->
  (Nat.min (S b) (length df) - a)%nat = length vals /\ length df' = length df.
Proof.
  intros H. split.
  - unfold loc_assign in H.
    destruct (_ =? length vals)%nat eqn:Hsel; [|done]. by apply Nat.eqb_eq in Hsel.
  - apply loc_assign_descs in H. by rewrite <- (length_fmap fst df'), H, length_fmap.
Qed.

(** X14. A description file of fewer than four lines makes
    [name_columns] raise ValueError, when the two tables are built
    (a file of one line or none makes no table of two columns) or at
    the assignment of line 268, before any name of the environment is
    read: whatever is bound, once [np.loadtxt] has read the two files. *)
Theorem name_columns_short_table
    loadtxt select_product unique_ragged g colfile infofile filts info_rows col_rows :
  loadtxt infofile " " = Ok info_rows ->
  loadtxt colfile ". " = Ok col_rows ->
  length col_rows < 4 ->
  name_columns loadtxt select_product unique_ragged g colfile infofile filts =
  Raise ValueError.
Proof.
  intros Hinfo Hcol Hlen. unfold name_columns, read_table.
  rewrite Hinfo. cbn [pybind].
  destruct (two_column_frame info_rows) as [infodf|e] eqn:H1; cbn [pybind].
  2: { unfold two_column_frame in H1. by repeat case_match; simplify_eq. }
  rewrite Hcol. cbn [pybind].
  destruct (two_column_frame col_rows) as [coldf|e] eqn:H2; cbn [pybind].
  2: { unfold two_column_frame in H2. by repeat case_match; simplify_eq. }
  apply two_column_frame_ok in H2 as (_ & Hrows & _).
  unfold assign_colnames, loc_assign. rewrite !length_fmap. cbn [length fakepos_columns].
  destruct (_ =? 4)%nat eqn:Hsel; [|done]. apply Nat.eqb_eq in Hsel. lia.
Qed.

Lemma name_columns_short_table_witness :
  name_columns (loadtxt_from short_dir) select_wfc3 unique_refused bound_globals
    "field.phot.columns" "field.phot.info" [] = Raise ValueError.
Proof.
  apply (name_columns_short_table (loadtxt_from short_dir) select_wfc3 unique_refused
           bound_globals "field.phot.columns" "field.phot.info" [] two_line_manifest
           (numbered ["Input extension"; "Input chip"; "Input X position"])).
  - reflexivity.
  - reflexivity.
  - simpl. lia.
Defined.

Lemma image_loop_shape select_product g images : forall countim ind df ind' df',
  image_loop select_product g images countim ind df = Ok (ind', df') ->
  length df' = length df /\
  match chip_images images with
  | [] => ind' = ind
  | _ :: _ =>
      g_this_config g = true /\
      ind' = Some (2 + 2 * (countim + length (chip_images images)))%nat /\
      (4 + 2 * (countim + length (chip_images images)) <= length df)%nat
  end.
Proof.
  unfold chip_images.
  induction images as [|image rest IH]; cbn [image_loop List.filter];
    intros countim ind df ind' df' Hrun.
  - by simplify_eq.
  - destruct (PyStr.contains "chip" image); cbn [negb] in Hrun; [|by apply IH].
    destruct (g_this_config g) eqn:Hconfig; cbn [global_bound pybind] in Hrun; [|done].
    destruct (select_product _); cbn [pybind] in Hrun; [|done].
    destruct (loc_assign _ _ _ df) as [df1|] eqn:Hassign; cbn [pybind] in Hrun; [|done].
    apply loc_assign_ok in Hassign as [Hsel Hlen1]. cbn [length] in Hsel.
    apply IH in Hrun as [Hlen Hrest]. rewrite Hlen1 in Hlen. split; [done|].
    split; [done|]. cbn [length].
    destruct (List.filter _ rest) as [|image' rest'].
    + cbn [length]. split; [rewrite Hrest; f_equal; lia | lia].
    + destruct Hrest as (_ & -> & Hbound). cbn [length] in *. rewrite Hlen1 in Hbound.
      split; [f_equal; lia | lia].
Qed.

Lemma assign_colnames_needs_chip_image
    select_product unique_ragged g infodf descs filts imnames :
  g_imnames g = Some imnames ->
  chip_images imnames = [] ->
  4 <= length descs ->
  assign_colnames select_product unique_ragged g infodf descs filts =
  Raise UnboundLocalError.
Proof.
  intros Hnames Hnone Hlen. unfold assign_colnames.
  destruct (loc_assign 0 3 _ _) as [df1|] eqn:H1.
  - cbn [pybind]. rewrite Hnames. cbn [global_name pybind].
    destruct (image_loop _ _ _ _ _ _) as [[ind df2]|] eqn:H2.
    + apply image_loop_shape in H2 as [_ H2]. rewrite Hnone in H2. by subst ind.
    + exfalso. revert H2. generalize 0%nat at 1. generalize (@None nat). revert Hnone.
      unfold chip_images. clear.
      induction imnames as [|image rest IH]; cbn [image_loop List.filter]; [done|].
      destruct (PyStr.contains "chip" image); [done|]. cbn [negb]. intros Hnone ind n.
      by apply IH.
  - exfalso. unfold loc_assign in H1. rewrite length_fmap in H1.
    cbn [length fakepos_columns] in H1.
    destruct (_ =? 4)%nat eqn:Hsel; [done|]. apply Nat.eqb_neq in Hsel. lia.
Qed.

(** X15. Where [imnames] is bound but names no image with [chip] in
    its name, and the two tables are read, the one of the descriptions
    with its four rows, [name_columns] raises UnboundLocalError on
    line 281: [ind] was never assigned. *)
Theorem name_columns_needs_chip_image
    loadtxt select_product unique_ragged g colfile infofile filts infodf coldf imnames :
  read_table loadtxt infofile " " = Ok infodf ->
  read_table loadtxt colfile ". " = Ok coldf ->
  g_imnames g = Some imnames ->
  chip_images imnames = [] ->
  4 <= length coldf ->
  name_columns loadtxt select_product unique_ragged g colfile infofile filts =
  Raise UnboundLocalError.
Proof.
  intros Hinfo Hcol Hnames Hnone Hlen.
  rewrite (name_columns_tables _ _ _ _ _ _ _ _ _ Hinfo Hcol).
  eapply assign_colnames_needs_chip_image; [done..|]. by rewrite length_fmap.
Qed.

Lemma name_columns_needs_chip_image_witness :
  name_columns (loadtxt_from drz_dir) select_wfc3 unique_refused drz_globals
    "field.phot.columns" "field.phot.info" [] = Raise UnboundLocalError.
Proof.
  apply (name_columns_needs_chip_image (loadtxt_from drz_dir) select_wfc3 unique_refused
           drz_globals "field.phot.columns" "field.phot.info" []
           [("field_drz", "0"); ("field_ref", "0")]
           (zip (pretty <$> seq 1 18) scenario_a_descs)
           ["field_drz"; "field_ref"]).
  - reflexivity.
  - vm_compute. reflexivity.
  - reflexivity.
  - reflexivity.
  - simpl. lia.
Defined.

(** X16. A call of [name_columns] that returns has read two tables,
    the manifest of two rows at least, had all three names bound that
    the function reads from its environment, at least one image with
    [chip] in its name, and a description table of at least fifteen
    rows and two more for every such image. *)
Theorem name_columns_success_requires
    loadtxt select_product unique_ragged g colfile infofile filts r :
  name_columns loadtxt select_product unique_ragged g colfile infofile filts = Ok r ->
  exists infodf coldf imnames,
    read_table loadtxt infofile " " = Ok infodf /\
    read_table loadtxt colfile ". " = Ok coldf /\
    2 <= length infodf /\
    g_imnames g = Some imnames /\ g_this_config g = true /\ g_my_job g = true /\
    1 <= length (chip_images imnames) /\
    15 + 2 * length (chip_images imnames) <= length coldf.
Proof.
  intros (infodf & coldf & Hinfo & Hcol & Hrun)%name_columns_inv.
  exists infodf, coldf.
  destruct (read_table_ok _ _ _ _ Hinfo) as (info_rows & _ & Hrows & Hlen).
  unfold assign_colnames in Hrun.
  destruct (loc_assign 0 3 _ _) as [df1|] eqn:H1; cbn [pybind] in Hrun; [|done].
  destruct (g_imnames g) as [imnames|]; cbn [global_name pybind] in Hrun; [|done].
  destruct (image_loop _ _ _ _ _ _) as [[ind df2]|] eqn:H2; cbn [pybind fst snd] in Hrun;
    [|done].
  destruct ind as [ind|]; cbn [pybind] in Hrun; [|done].
  destruct (loc_assign _ _ global_columns _) as [df3|] eqn:H3; cbn [pybind] in Hrun; [|done].
  remember (mapping_loop colname_mappings df3 []) as mapped eqn:Hmapped.
  destruct (unique_ravel _ _); cbn [pybind] in Hrun; [|done].
  destruct (g_my_job g); cbn [global_bound pybind] in Hrun; [|done].
  clear Hrun Hmapped.
  apply loc_assign_ok in H1 as [_ Hlen1]. rewrite !length_fmap in Hlen1.
  apply image_loop_shape in H2 as [Hlen2 Hshape].
  apply loc_assign_ok in H3 as [Hsel _]. cbn [length global_columns] in Hsel.
  exists imnames. do 2 (split; [done|]). split; [lia|]. split; [done|].
  destruct (chip_images imnames) as [|image rest]; [done|].
  destruct Hshape as (Hconfig & [= ->] & Hbound). cbn [length] in *.
  repeat split; try done; lia.
Qed.

Lemma name_columns_success_requires_witness :
  exists infodf coldf imnames,
    read_table (loadtxt_from unmatched_dir) "field.phot.info" " " = Ok infodf /\
    read_table (loadtxt_from unmatched_dir) "field.phot.columns" ". " = Ok coldf /\
    2 <= length infodf /\
    g_imnames bound_globals = Some imnames /\ g_this_config bound_globals = true /\
    g_my_job bound_globals = true /\
    1 <= length (chip_images imnames) /\
    15 + 2 * length (chip_images imnames) <= length coldf.
Proof.
  apply (name_columns_success_requires (loadtxt_from unmatched_dir) select_wfc3
           unique_refused bound_globals "field.phot.columns" "field.phot.info" []
           (zip unmatched_descs (scenario_a_head_names ++ [""; ""]), [])).
  vm_compute. reflexivity.
Defined.

(** X19. Where the name [imnames] is unbound, as the module leaves
    it, no call of [name_columns] returns: whatever the two files
    hold, the call raises, at the latest the NameError of line 270. *)
Theorem name_columns_needs_imnames
    loadtxt select_product unique_ragged g colfile infofile filts :
  g_imnames g = None ->
  exists e,
    name_columns loadtxt select_product unique_ragged g colfile infofile filts = Raise e /\
    (e = NameError \/
     forall g', name_columns loadtxt select_product unique_ragged g' colfile infofile filts =
                Raise e).
Proof.
  intros Hnames. unfold name_columns.
  destruct (read_table loadtxt infofile " ") as [infodf|e1]; cbn [pybind];
    [|exists e1; split; [done | by right]].
  destruct (read_table loadtxt colfile ". ") as [coldf|e2]; cbn [pybind];
    [|exists e2; split; [done | by right]].
  unfold assign_colnames.
  destruct (loc_assign 0 3 _ _) as [df1|e3]; cbn [pybind];
    [|exists e3; split; [done | by right]].
  rewrite Hnames. cbn [global_name pybind]. exists NameError. split; [done | by left].
Qed.

Lemma name_columns_needs_imnames_witness :
  exists e,
    name_columns (loadtxt_from unmatched_dir) select_wfc3 unique_refused
      (script_globals "field.phot") "field.phot.columns" "field.phot.info" [] = Raise e /\
    (e = NameError \/
     forall g', name_columns (loadtxt_from unmatched_dir) select_wfc3 unique_refused g'
                  "field.phot.columns" "field.phot.info" [] = Raise e).
Proof.
  apply (name_columns_needs_imnames (loadtxt_from unmatched_dir) select_wfc3 unique_refused
           (script_globals "field.phot") "field.phot.columns" "field.phot.info" []).
  reflexivity.
Defined.

(** ** The writer: what a finished call leaves *)

(** X17. When [read_fakestars] has finished, the file named after the
    photometry file is gone from the store and the file it was renamed
    to is there: the two never exist side by side after a finished
    call, whatever the name of the photometry file. *)
Theorem read_fakestars_finished_files
    all_pix2world re_compile header_table drzfiles files g w fakefile columns_df filters
    v w' :
  read_fakestars all_pix2world re_compile header_table drzfiles files
    g w fakefile columns_df filters = Finished v w' ->
  exists photfile,
    g_photfile g = Some photfile /\
    w_hdf w' !! (photfile +:+ ".hdf5") = None /\
    is_Some (w_hdf w' !! PyStr.replace ".hdf5" "_full.hdf5" (photfile +:+ ".hdf5")).
Proof.
  unfold read_fakestars. intros H.
  destruct (g_photfile g) as [photfile|]; cbn [global_name] in H; [|done].
  destruct (pybind _ _) as [df|]; [|done].
  destruct header_table as [header_df|]; [|done].
  cbn [w_hdf w_params] in H.
  destruct (frame_select _ df) as [df0|]; [|done].
  destruct (cull_fakestars df0 filters (w_params w)) as [df1 p1|e1 df1 p1]; [|done].
  destruct (add_wcs all_pix2world df1 photfile drzfiles).2 as [df2|]; [|done].
  destruct (os_rename _ _ _) as [fs|] eqn:Hrename; [|done].
  destruct (write_filters _ _ _ _ fs) as [fs' [e'|]] eqn:Hwrite; [done|].
  injection H as _ <-. cbn [w_hdf].
  unfold os_rename in Hrename. destruct (_ !! _) as [file|]; [|done].
  injection Hrename as <-.
  exists photfile. split; [done|]. split.
  - change fs' with (fs', @None pyexn).1. rewrite <- Hwrite.
    rewrite write_filters_other by (intros E; by apply (replace_hdf5_differs photfile)).
    rewrite lookup_insert_ne by apply replace_hdf5_differs.
    apply lookup_delete_eq.
  - change fs' with (fs', @None pyexn).1. rewrite <- Hwrite.
    apply write_filters_lookup. rewrite lookup_insert_eq. by eexists.
Qed.

Lemma read_fakestars_finished_files_witness :
  exists photfile,
    g_photfile (script_globals "field.phot") = Some photfile /\
    w_hdf (run_world example_run) !! (photfile +:+ ".hdf5") = None /\
    is_Some (w_hdf (run_world example_run) !!
               PyStr.replace ".hdf5" "_full.hdf5" (photfile +:+ ".hdf5")).
Proof.
  apply (read_fakestars_finished_files pix2world_identity re_compile_plain example_header []
           example_files (script_globals "field.phot") (World ∅ ∅) "field.phot.fake"
           example_columns ["WFC3_F814W"] PyNone (run_world example_run)).
  vm_compute. reflexivity.
Defined.

(** ** The writer: the section [data] *)

Lemma alist_set_labels {A} name (c : A) l m : m ∈ l.*1 -> m ∈ (Alist.set name c l).*1.
Proof.
  induction l as [|[n c0] l IH]; simpl; [by intros ?%elem_of_nil|].
  intros Hin. destruct (String.eqb n name); [done|]. simpl.
  apply elem_of_cons in Hin as [->|Hin]; [apply list_elem_of_here|].
  by apply list_elem_of_further, IH.
Qed.

Lemma cull_filter_labels df name d snrcut p m :
  m ∈ labels df -> m ∈ labels (cull_filter df name d snrcut p).1.
Proof.
  intros Hin.
  destruct (cull_filter_cases df name d snrcut p) as [->|[_ [->| ->]]];
    unfold labels, frame_set; cbn [cols fst]; [|done|];
    by repeat apply alist_set_labels.
Qed.

Lemma cull_loop_labels snrcut filters : forall df p m,
  m ∈ labels df ->
  m ∈ labels (outcome_frame (cull_loop snrcut filters df p)) /\
  nrows (outcome_frame (cull_loop snrcut filters df p)) = nrows df.
Proof.
  induction filters as [|filt rest IH]; simpl; intros df p m Hin; [done|].
  destruct (unpack2 _) as [[d f]|e]; [|done].
  destruct (detector_class d f p) as [d' p1].
  pose proof (cull_filter_labels df (PyStr.lower filt) d' snrcut p1 m Hin) as Hin1.
  pose proof (cull_filter_nrows df (PyStr.lower filt) d' snrcut p1) as Hrows1.
  destruct (cull_filter _ _ _ _ _) as [df1 [e0|]]; cbn [fst] in Hin1, Hrows1; [done|].
  destruct (IH df1 p1 m Hin1) as [Hget Hrows]. split; [done|]. by rewrite Hrows.
Qed.

Lemma frame_select_ok names df df0 :
  frame_select names df = Ok df0 -> labels df0 = names /\ nrows df0 = nrows df.
Proof.
  unfold frame_select. destruct (mapM _ names) as [columns|] eqn:Hcols; [|done].
  intros [= <-]. split; [|done]. unfold labels. cbn [cols].
  apply mapM_Some in Hcols. induction Hcols as [|n nc names columns Hn _ IH]; [done|].
  destruct (frame_get n df); [|done]. injection Hn as <-.
  rewrite fmap_cons. by f_equal.
Qed.

Lemma labels_kept {A} loc (name : string) (c : A) (l : list (string * A)) x :
  x ∈ l.*1 -> x ∈ (take loc l ++ (name, c) :: drop loc l).*1.
Proof.
  rewrite fmap_app, fmap_cons, fmap_take, fmap_drop. simpl.
  rewrite elem_of_app, elem_of_cons.
  rewrite <- (take_drop loc (l.*1)) at 1. rewrite elem_of_app. tauto.
Qed.

Lemma add_wcs_labels all_pix2world df photfile drzfiles df' m :
  (add_wcs all_pix2world df photfile drzfiles).2 = Ok df' ->
  m ∈ labels df -> m ∈ labels df' /\ nrows df' = nrows df.
Proof.
  unfold add_wcs. intros H Hin.
  destruct drzfiles as [|drzfile [|drzfile' rest]];
    cbn [length Nat.eqb Nat.ltb Nat.leb snd] in H; [by simplify_eq| |by simplify_eq].
  destruct (attr_col "x" df) as [x|]; cbn [pybind] in H; [|done].
  destruct (attr_col "y" df) as [y|]; cbn [pybind] in H; [|done].
  destruct (all_pix2world drzfile x y) as [[ra dec]|]; cbn [pybind fst snd] in H; [|done].
  destruct (frame_insert 4 "ra" ra df) as [df1|] eqn:Hra; cbn [pybind] in H; [|done].
  apply frame_insert_ok in Hra as (_ & _ & _ & ->).
  apply frame_insert_ok in H as (_ & _ & _ & ->). cbn [nrows cols]. split; [|done].
  unfold labels in *. cbn [cols]. by do 2 apply labels_kept.
Qed.

Lemma write_filters_section re_compile filters df outfile_full key (d : frame) :
  key ∉ filters ->
  forall (fs : hdfstore) file,
    fs !! outfile_full = Some file -> Alist.get key file = Some d ->
    exists file',
      (write_filters re_compile filters df outfile_full fs).1 !! outfile_full = Some file' /\
      Alist.get key file' = Some d.
Proof.
  induction filters as [|f rest IH]; cbn [write_filters]; intros Hkey fs file Hfile Hget.
  - by exists file.
  - apply not_elem_of_cons in Hkey as [Hne Hkey].
    destruct (frame_filter re_compile ("_" +:+ f +:+ "_") df) as [section|e];
      [|by exists file].
    apply (IH Hkey _ (if frame_empty section then file else Alist.set f section file)).
    + unfold to_hdf. by rewrite lookup_insert_eq, Hfile.
    + destruct (frame_empty _); [done|]. by rewrite alist_get_set_ne.
Qed.

(** X18. In every finished call of [read_fakestars] on a measurement
    file with at least one row, every name of the column table that
    lacks the text [\ (] labels a column of the section [data] of the
    renamed file: the selection of line 386 withholds no column whose
    name lacks that text, and no filter section takes the place of
    [data], for the identifiers of a finished call hold an underscore. *)
Theorem read_fakestars_data_section
    all_pix2world re_compile header_table drzfiles files g w fakefile columns_df filters
    v w' photfile raw name :
  read_fakestars all_pix2world re_compile header_table drzfiles files
    g w fakefile columns_df filters = Finished v w' ->
  g_photfile g = Some photfile ->
  files !! photfile = Some raw ->
  0 < raw_rows raw ->
  name ∈ columns_df.*2 ->
  PyStr.contains "\ (" name = false ->
  exists ls,
    section_labels (PyStr.replace ".hdf5" "_full.hdf5" (photfile +:+ ".hdf5")) "data" w' =
    Some ls /\
    name ∈ ls.
Proof.
  unfold read_fakestars. intros H Hphot Hfile Hrows Hname Htext.
  rewrite Hphot in H. cbn [global_name] in H. rewrite Hfile in H. cbn [pybind] in H.
  destruct (read_csv _ _ _) as [df|] eqn:Hread; [|done].
  destruct header_table as [header_df|]; [|done].
  cbn [w_hdf w_params] in H.
  destruct (frame_select _ df) as [df0|] eqn:Hselect; [|done].
  destruct (cull_fakestars df0 filters (w_params w)) as [df1 p1|e1 df1 p1] eqn:Hcull;
    [|done].
  destruct (add_wcs all_pix2world df1 photfile drzfiles).2 as [df2|] eqn:Hwcs; [|done].
  destruct (os_rename _ _ _) as [fs|] eqn:Hrename; [|done].
  destruct (write_filters _ _ _ _ fs) as [fs' [e'|]] eqn:Hwrite; [done|].
  injection H as _ <-.
  assert (Hdata : "data" ∉ filters).
  { intros Hin.
    assert (Hone : count_char "_"%char "data" = 1); [|done].
    by apply (cull_loop_returned_ids _ _ _ _ _ _ Hcull). }
  assert (Hdf : nrows df = raw_rows raw).
  { unfold read_csv in Hread. repeat case_match; try done. by injection Hread as <-. }
  apply frame_select_ok in Hselect as [Hlabels0 Hrows0].
  assert (Hin0 : name ∈ labels df0).
  { rewrite Hlabels0. by apply list_elem_of_filter. }
  destruct (cull_loop_labels (read_snrcut (w_params w)) filters df0 (w_params w) name Hin0)
    as [Hin1 Hrows1].
  fold (cull_fakestars df0 filters (w_params w)) in Hin1, Hrows1.
  rewrite Hcull in Hin1, Hrows1. cbn [outcome_frame] in Hin1, Hrows1.
  destruct (add_wcs_labels _ _ _ _ _ _ Hwcs Hin1) as [Hin2 Hrows2].
  assert (Hfull : frame_empty df2 = false).
  { unfold frame_empty. apply orb_false_intro; apply Nat.eqb_neq.
    - lia.
    - unfold labels in Hin2. intros Hnil. apply length_zero_iff_nil in Hnil.
      rewrite Hnil in Hin2. by apply elem_of_nil in Hin2. }
  unfold os_rename, to_hdf in Hrename. rewrite lookup_insert_eq, Hfull in Hrename.
  injection Hrename as <-.
  match type of Hwrite with
  | write_filters _ _ _ _ ?fs = _ =>
      destruct (write_filters_section re_compile filters df
                  (PyStr.replace ".hdf5" "_full.hdf5" (photfile +:+ ".hdf5")) "data" df2
                  Hdata fs _ (lookup_insert_eq _ _ _) (alist_get_set_eq "data" df2 _))
        as (file' & Hfile' & Hget)
  end.
  rewrite Hwrite in Hfile'. cbn [fst] in Hfile'.
  exists (labels df2). split; [|done].
  unfold section_labels. cbn [w_hdf]. rewrite Hfile'. cbn. by rewrite Hget.
Qed.

Lemma read_fakestars_data_section_witness :
  exists ls,
    section_labels (PyStr.replace ".hdf5" "_full.hdf5" ("field.phot" +:+ ".hdf5")) "data"
      (run_world example_run) = Some ls /\
    "img1.chip1_counts" ∈ ls.
Proof.
  apply (read_fakestars_data_section pix2world_identity re_compile_plain example_header []
           example_files (script_globals "field.phot") (World ∅ ∅) "field.phot.fake"
           example_columns ["WFC3_F814W"] PyNone (run_world example_run) "field.phot"
           (default (RawFile 0 []) (example_files !! "field.phot")) "img1.chip1_counts").
  - vm_compute. reflexivity.
  - reflexivity.
  - vm_compute. reflexivity.
  - vm_compute. lia.
  - apply list_elem_of_In. vm_compute. tauto.
  - vm_compute. reflexivity.
Defined.
